(** * sslsniff: capture handlers, correlation table and consumer

    A shallow embedding of [tools/sslsniff.py]: the three probe handlers of the
    embedded BPF program ([probe_SSL_write], [probe_SSL_read_enter],
    [probe_SSL_read_exit]) and the Python consumer ([print_event]).

    Conventions.
    - C integers are [Z]; a conversion to [u32] is written out as [u32 z].
    - The per-CPU array [data_map] is seen from the CPU the handler runs on:
      a list whose entry 0 is that CPU's scratch record.
    - The hash table [bufs] is a finite map from thread id to saved pointer.
    - What a handler does to the outside (reading user memory, submitting a
      record to a perf buffer) is returned as the list of helper calls it
      made, in program order. *)

From stdpp Require Import gmap strings list pretty.

Local Open Scope Z_scope.

(** ** Integer types and constants *)

Definition u32 (z : Z) : Z := z `mod` 2 ^ 32.

Definition TASK_COMM_LEN : Z := 16.
Definition MAX_BUF_SIZE : Z := 1024 * 8.

(** ** The shared record *)

Record probe_SSL_data_t := {
  timestamp_ns : Z;          (* u64 *)
  pid : Z;                   (* u32 *)
  comm : list Z;             (* char[TASK_COMM_LEN] *)
  v0 : list Z;               (* char[MAX_BUF_SIZE] *)
  len : Z                    (* u32 *)
}.

Definition set_timestamp_ns (x : Z) (d : probe_SSL_data_t) : probe_SSL_data_t :=
  {| timestamp_ns := x; pid := pid d; comm := comm d; v0 := v0 d; len := len d |}.
Definition set_pid (x : Z) (d : probe_SSL_data_t) : probe_SSL_data_t :=
  {| timestamp_ns := timestamp_ns d; pid := x; comm := comm d; v0 := v0 d; len := len d |}.
Definition set_comm (x : list Z) (d : probe_SSL_data_t) : probe_SSL_data_t :=
  {| timestamp_ns := timestamp_ns d; pid := pid d; comm := x; v0 := v0 d; len := len d |}.
Definition set_v0 (x : list Z) (d : probe_SSL_data_t) : probe_SSL_data_t :=
  {| timestamp_ns := timestamp_ns d; pid := pid d; comm := comm d; v0 := x; len := len d |}.
Definition set_len (x : Z) (d : probe_SSL_data_t) : probe_SSL_data_t :=
  {| timestamp_ns := timestamp_ns d; pid := pid d; comm := comm d; v0 := v0 d; len := x |}.

(** A freshly created array entry: all bytes zero. *)
Definition zero_data : probe_SSL_data_t :=
  {| timestamp_ns := 0; pid := 0;
     comm := replicate (Z.to_nat TASK_COMM_LEN) 0;
     v0 := replicate (Z.to_nat MAX_BUF_SIZE) 0;
     len := 0 |}.

(** ** Command line *)

Record arguments := {
  args_pid : option Z;          (* -p PID, [None] when absent *)
  args_comm : option string;    (* -c COMM, [None] when absent *)
  args_hexdump : bool;          (* --hexdump *)
  bufs_max_entries : nat        (* table size the BPF_HASH macro gives [bufs] *)
}.

(** ** Kernel side *)

(** What the kernel helpers answer during one handler invocation:
    [bpf_get_current_pid_tgid], [bpf_ktime_get_ns], [bpf_get_current_comm]
    and the user address space [bpf_probe_read_user] reads from (an address
    maps to a byte, or is not readable). *)
Record kernel := {
  current_pid_tgid : Z;
  ktime_get_ns : Z;
  current_comm : list Z;
  user_mem : Z → option Z
}.

(** The saved registers; the handlers read the return register only. *)
Record pt_regs := { PT_REGS_RC : Z }.

Record bpf_maps := {
  data_map : list probe_SSL_data_t;
  bufs : gmap Z Z
}.

Definition set_data (d : probe_SSL_data_t) (s : bpf_maps) : bpf_maps :=
  {| data_map := <[0%nat := d]> (data_map s); bufs := bufs s |}.
Definition set_bufs (m : gmap Z Z) (s : bpf_maps) : bpf_maps :=
  {| data_map := data_map s; bufs := m |}.

Inductive perf_output := perf_SSL_write | perf_SSL_read.

Inductive helper_call :=
  | probe_read_user (size src ret : Z)
  | perf_submit (ch : perf_output) (d : probe_SSL_data_t).

Record result := {
  ret : Z;
  maps : bpf_maps;
  calls : list helper_call
}.

Definition return_ (r : Z) (s : bpf_maps) (tr : list helper_call) : result :=
  {| ret := r; maps := s; calls := tr |}.

(** [pid != N] where [N] is the decimal text of [args.pid] pasted into the C
    program and [pid] is a [u32]. A literal that fits [int] is converted to
    [unsigned int] for the comparison; a wider one makes it a [long]
    comparison. *)
Definition pid_ne_literal (pid n : Z) : bool :=
  if 0 <=? n then negb (pid =? n)
  else if - n <=? 2147483647 then negb (pid =? n + 2 ^ 32)
  else true.

(** The text substituted for FILTER: [true] when the handler returns there.
    [if args.pid:] is false for an absent and for a zero PID. *)
Definition FILTER (a : arguments) (pid : Z) : bool :=
  match args_pid a with
  | Some n => if n =? 0 then false else pid_ne_literal pid n
  | None => false
  end.

(** [bpf_probe_read_user(dst, size, src)], a helper of the kernel and not of
    this program, by its contract: when all [size] bytes at [src] are readable
    they replace the first [size] bytes of [dst] and the helper returns 0;
    otherwise it returns -EFAULT and leaves those bytes zeroed. *)
Definition bpf_probe_read_user (m : Z → option Z) (dst : list Z) (size src : Z)
  : Z * list Z :=
  match mapM m (seqZ src size) with
  | Some bytes => (0, bytes ++ drop (Z.to_nat size) dst)
  | None => (-14, replicate (Z.to_nat size) 0 ++ drop (Z.to_nat size) dst)
  end.

(** [bufs.update(&tid, &buf)]: an existing key is overwritten, a new key is
    added unless the table is full (the result is not looked at). *)
Definition bufs_update (a : arguments) (tid buf : Z) (m : gmap Z Z) : gmap Z Z :=
  match m !! tid with
  | Some _ => <[tid := buf]> m
  | None => if decide (size m < bufs_max_entries a)%nat then <[tid := buf]> m else m
  end.

Definition probe_SSL_write (a : arguments) (k : kernel) (ctx : pt_regs)
    (ssl buf num : Z) (s : bpf_maps) : result :=
  let num := u32 num in
  let pid_tgid := current_pid_tgid k in
  let pid := u32 (pid_tgid ≫ 32) in
  if FILTER a pid then return_ 0 s [] else
  match data_map s !! 0%nat with
  | None => return_ 0 s []
  | Some __data =>
    let __data := set_timestamp_ns (ktime_get_ns k) __data in
    let __data := set_pid pid __data in
    let __data := set_len num __data in
    if num =? 4294967295 then return_ 0 (set_data __data s) [] else
    let size := if num >? MAX_BUF_SIZE - 1 then MAX_BUF_SIZE - 1 else num in
    let __data := set_comm (current_comm k) __data in
    let '(__data, tr) :=
      if negb (buf =? 0) then
        let '(r, v) := bpf_probe_read_user (user_mem k) (v0 __data) size buf in
        (set_v0 v __data, [probe_read_user size buf r])
      else (__data, []) in
    let __data := set_v0 (<[Z.to_nat size := 0]> (v0 __data)) __data in
    return_ 0 (set_data __data s) (tr ++ [perf_submit perf_SSL_write __data])
  end.

Definition probe_SSL_read_enter (a : arguments) (k : kernel) (ctx : pt_regs)
    (ssl buf num : Z) (s : bpf_maps) : result :=
  let pid_tgid := current_pid_tgid k in
  let pid := u32 (pid_tgid ≫ 32) in
  let tid := u32 pid_tgid in
  if FILTER a pid then return_ 0 s [] else
  return_ 0 (set_bufs (bufs_update a tid buf (bufs s)) s) [].

Definition probe_SSL_read_exit (a : arguments) (k : kernel) (ctx : pt_regs)
    (ssl buf num : Z) (s : bpf_maps) : result :=
  let pid_tgid := current_pid_tgid k in
  let pid := u32 (pid_tgid ≫ 32) in
  let tid := u32 pid_tgid in
  if FILTER a pid then return_ 0 s [] else
  match bufs s !! tid with
  | None => return_ 0 s []
  | Some bufp =>
    match data_map s !! 0%nat with
    | None => return_ 0 s []
    | Some __data =>
      let __data := set_timestamp_ns (ktime_get_ns k) __data in
      let __data := set_pid pid __data in
      let __data := set_len (u32 (PT_REGS_RC ctx)) __data in
      if len __data =? 4294967295 then return_ 0 (set_data __data s) [] else
      let __data := set_comm (current_comm k) __data in
      let size :=
        if len __data >? MAX_BUF_SIZE - 1 then MAX_BUF_SIZE - 1 else len __data in
      (* [bufp != 0] tests the table entry found above, not the saved pointer:
         the read below is always made *)
      let '(r, v) := bpf_probe_read_user (user_mem k) (v0 __data) size bufp in
      let __data := set_v0 v __data in
      let tr := [probe_read_user size bufp r] in
      let __data := set_v0 (<[Z.to_nat size := 0]> (v0 __data)) __data in
      let s := set_data __data s in
      let s := set_bufs (delete tid (bufs s)) s in
      return_ 0 s (tr ++ [perf_submit perf_SSL_read __data])
    end
  end.

(** ** Attached probes *)

(** One firing of an attached probe: which handler, and the argument
    registers it is entered with. *)
Inductive probe :=
  | SSL_write (ssl buf num : Z)
  | SSL_read_enter (ssl buf num : Z)
  | SSL_read_exit (ssl buf num : Z).

Definition fire (a : arguments) (k : kernel) (ctx : pt_regs) (p : probe)
    (s : bpf_maps) : result :=
  match p with
  | SSL_write ssl buf num => probe_SSL_write a k ctx ssl buf num s
  | SSL_read_enter ssl buf num => probe_SSL_read_enter a k ctx ssl buf num s
  | SSL_read_exit ssl buf num => probe_SSL_read_exit a k ctx ssl buf num s
  end.

(** Handlers run to completion, one after the other. *)
Fixpoint fire_all (a : arguments) (ps : list (kernel * pt_regs * probe))
    (s : bpf_maps) : bpf_maps * list helper_call :=
  match ps with
  | [] => (s, [])
  | (k, ctx, p) :: ps =>
    let r := fire a k ctx p s in
    let '(s', tr) := fire_all a ps (maps r) in
    (s', calls r ++ tr)
  end.

(** The maps as the loader creates them. *)
Definition initial_maps : bpf_maps :=
  {| data_map := [zero_data]; bufs := ∅ |}.

(** Every entry of [data_map] has a payload block of [MAX_BUF_SIZE] bytes. *)
Definition slots_ok (s : bpf_maps) : Prop :=
  Forall (λ d, length (v0 d) = Z.to_nat MAX_BUF_SIZE) (data_map s).

(** *** Reading a list of helper calls *)

(** The records submitted, with their channel. *)
Definition emitted (tr : list helper_call) : list (perf_output * probe_SSL_data_t) :=
  omap (λ c, match c with perf_submit ch d => Some (ch, d) | _ => None end) tr.

(** The bytes brought in from user memory: the sizes of the reads that
    returned 0. *)
Definition bytes_copied (tr : list helper_call) : Z :=
  foldr (λ c acc,
    match c with
    | probe_read_user size _ r => if r =? 0 then size + acc else acc
    | _ => acc
    end) 0 tr.

(** The copy size either handler computes from a record's [len]. *)
Definition copy_size (n : Z) : Z :=
  if n >? MAX_BUF_SIZE - 1 then MAX_BUF_SIZE - 1 else n.

(** The length a call reports to its handler: the requested length of a
    write, the returned length at the exit of a read. *)
Definition reported_length (ctx : pt_regs) (p : probe) : option Z :=
  match p with
  | SSL_write _ _ num => Some (u32 num)
  | SSL_read_enter _ _ _ => None
  | SSL_read_exit _ _ _ => Some (u32 (PT_REGS_RC ctx))
  end.

(** ** Consumer *)

(** The value of a [c_char] array field: the bytes before the first NUL. *)
Fixpoint c_char_value (l : list Z) : list Z :=
  match l with
  | [] => []
  | c :: l => if c =? 0 then [] else c :: c_char_value l
  end.

(** [s * n] on Python strings. *)
Fixpoint str_mul (s : string) (n : nat) : string :=
  match n with
  | O => ""
  | S n => s +:+ str_mul s n
  end.

(** [binascii.hexlify]. *)
Definition hex_digit (d : Z) : Z := if d <? 10 then 48 + d else 87 + d.
Definition hexlify (l : list Z) : list Z :=
  l ≫= λ c, [hex_digit (c `div` 16); hex_digit (c `mod` 16)].

(** The arguments of the final [print]. [time_ns] is
    [event.timestamp_ns - start]; the program prints it divided by
    1000000000 as a float with nine decimals. *)
Record printed := {
  p_rw : string;
  p_time_ns : Z;
  p_comm : string;
  p_pid : Z;
  p_len : Z;
  p_s_mark : string;
  p_data : string;
  p_e_mark : string
}.

Section consumer.
(** [bytes.decode('utf-8', 'replace')] and [textwrap.fill(_, width)]. *)
Variable decode : list Z → string.
Variable fill : string → Z → string.

Variable args : arguments.

(** [if args.comm:] holds for a filter that is given and not empty. *)
Definition comm_filter : option string :=
  match args_comm args with
  | Some c => if decide (c = "") then None else Some c
  | None => None
  end.

(** [print_event]: the new value of the global [start] and what is
    printed, if anything. *)
Definition print_event (start : Z) (event : probe_SSL_data_t) (rw : string)
  : Z * option printed :=
  let dropped :=
    match comm_filter with
    | Some c => negb (bool_decide (c = decode (c_char_value (comm event))))
    | None => false
    end in
  if dropped then (start, None) else
  let start := if start =? 0 then timestamp_ns event else start in
  let time_ns := timestamp_ns event - start in
  let s_mark := str_mul "-" 5 +:+ " DATA " +:+ str_mul "-" 5 in
  let e_mark := str_mul "-" 5 +:+ " END DATA " +:+ str_mul "-" 5 in
  let truncated_bytes := len event - MAX_BUF_SIZE in
  let e_mark :=
    if truncated_bytes >? 0 then
      str_mul "-" 5 +:+ " END DATA (TRUNCATED, " +:+ pretty truncated_bytes +:+
      " bytes lost) " +:+ str_mul "-" 5
    else e_mark in
  let data :=
    if args_hexdump args then
      let unwrapped_data := hexlify (c_char_value (v0 event)) in
      fill (decode unwrapped_data) 32
    else decode (c_char_value (v0 event)) in
  (start, Some {| p_rw := rw; p_time_ns := time_ns;
                  p_comm := decode (c_char_value (comm event));
                  p_pid := pid event; p_len := len event;
                  p_s_mark := s_mark; p_data := data; p_e_mark := e_mark |}).

Definition print_event_write (start : Z) (event : probe_SSL_data_t) :=
  print_event start event "WRITE/SEND".
Definition print_event_read (start : Z) (event : probe_SSL_data_t) :=
  print_event start event "READ/RECV".

Definition callback (ch : perf_output) :=
  match ch with
  | perf_SSL_write => print_event_write
  | perf_SSL_read => print_event_read
  end.

(** The polling loop over the records that arrive, one callback each. *)
Fixpoint poll (start : Z) (evs : list (perf_output * probe_SSL_data_t))
  : Z * list printed :=
  match evs with
  | [] => (start, [])
  | (ch, event) :: evs =>
    let '(start, out) := callback ch start event in
    let '(start', outs) := poll start evs in
    (start', option_list out ++ outs)
  end.

End consumer.

(** The handlers that end in [perf_submit]: all but Read Entry. *)
Definition may_submit (p : probe) : bool :=
  match p with
  | SSL_read_enter _ _ _ => false
  | _ => true
  end.

(** ** Attaching the probes *)

Inductive attach_kind := uprobe | uretprobe.

(** One [b.attach_uprobe] or [b.attach_uretprobe] call. *)
Record attachment := {
  at_kind : attach_kind;
  at_name : string;
  at_sym : string;
  at_fn_name : string;
  at_pid : Z
}.

(** The library switches [--no-openssl], [--no-gnutls], [--no-nss]; each
    field is [true] unless its switch is given. *)
Record libraries := {
  args_openssl : bool;
  args_gnutls : bool;
  args_nss : bool
}.

(** [args.pid or -1]. *)
Definition pid_or_all (p : option Z) : Z :=
  match p with
  | Some n => if n =? 0 then -1 else n
  | None => -1
  end.

Definition attach_uprobe (name sym fn_name : string) (pid : Z) : attachment :=
  {| at_kind := uprobe; at_name := name; at_sym := sym; at_fn_name := fn_name;
     at_pid := pid |}.
Definition attach_uretprobe (name sym fn_name : string) (pid : Z) : attachment :=
  {| at_kind := uretprobe; at_name := name; at_sym := sym; at_fn_name := fn_name;
     at_pid := pid |}.

(** The attachments the script makes, in its order. *)
Definition attach_all (l : libraries) (a : arguments) : list attachment :=
  let pid := pid_or_all (args_pid a) in
  (if args_openssl l then
     [attach_uprobe "ssl" "SSL_write" "probe_SSL_write" pid;
      attach_uprobe "ssl" "SSL_read" "probe_SSL_read_enter" pid;
      attach_uretprobe "ssl" "SSL_read" "probe_SSL_read_exit" pid]
   else []) ++
  (if args_gnutls l then
     [attach_uprobe "gnutls" "gnutls_record_send" "probe_SSL_write" pid;
      attach_uprobe "gnutls" "gnutls_record_recv" "probe_SSL_read_enter" pid;
      attach_uretprobe "gnutls" "gnutls_record_recv" "probe_SSL_read_exit" pid]
   else []) ++
  (if args_nss l then
     [attach_uprobe "nspr4" "PR_Write" "probe_SSL_write" pid;
      attach_uprobe "nspr4" "PR_Send" "probe_SSL_write" pid;
      attach_uprobe "nspr4" "PR_Read" "probe_SSL_read_enter" pid;
      attach_uretprobe "nspr4" "PR_Read" "probe_SSL_read_exit" pid;
      attach_uprobe "nspr4" "PR_Recv" "probe_SSL_read_enter" pid;
      attach_uretprobe "nspr4" "PR_Recv" "probe_SSL_read_exit" pid]
   else []).

(** The direction label a channel's callback prints. *)
Definition direction (ch : perf_output) : string :=
  match ch with
  | perf_SSL_write => "WRITE/SEND"
  | perf_SSL_read => "READ/RECV"
  end.

(** ** Example inputs *)

Module Ex.
(** No filters, the table size bcc gives a BPF_HASH by default. *)
Definition args : arguments :=
  {| args_pid := None; args_comm := None; args_hexdump := false;
     bufs_max_entries := Z.to_nat 10240 |}.

Definition args_curl : arguments :=
  {| args_pid := None; args_comm := Some "curl"; args_hexdump := false;
     bufs_max_entries := Z.to_nat 10240 |}.

(** User memory readable on [1000, 20000). *)
Definition mem (x : Z) : option Z :=
  if (1000 <=? x) && (x <? 20000) then Some (x `mod` 251 + 1) else None.

(** Thread 182 of process 181, command "curl". *)
Definition curl : kernel :=
  {| current_pid_tgid := 181 * 2 ^ 32 + 182;
     ktime_get_ns := 5000;
     current_comm := [99; 117; 114; 108; 0; 0; 0; 0; 0; 0; 0; 0; 0; 0; 0; 0];
     user_mem := mem |}.

Definition regs (rc : Z) : pt_regs := {| PT_REGS_RC := rc |}.

(** The maps after a first write of five bytes: the scratch record now
    holds that capture. *)
Definition used : bpf_maps :=
  maps (probe_SSL_write args curl (regs 0) 1 1000 5 initial_maps).
Definition used_slot : probe_SSL_data_t :=
  default zero_data (data_map used !! 0%nat).

(** The maps after thread 182 entered a read with buffer 1000. *)
Definition armed : bpf_maps :=
  maps (probe_SSL_read_enter args curl (regs 0) 1 1000 100 initial_maps).

(** The only record a handler run submitted, if it submitted one. *)
Definition the_event (r : result) : probe_SSL_data_t :=
  default zero_data (snd <$> head (emitted (calls r))).

(** Decoding of ASCII text; enough for the examples. *)
Definition decode (l : list Z) : string :=
  String.string_of_list_ascii ((λ c, Ascii.ascii_of_nat (Z.to_nat c)) <$> l).

Definition fill (s : string) (width : Z) : string := s.

(** What a callback printed, if it printed. *)
Definition the_block (x : Z * option printed) : printed :=
  default {| p_rw := ""; p_time_ns := 0; p_comm := ""; p_pid := 0; p_len := 0;
             p_s_mark := ""; p_data := ""; p_e_mark := "" |} x.2.

(** A write of 9000 bytes from readable memory, and the record it emits. *)
Definition long_write : probe_SSL_data_t :=
  the_event (fire args curl (regs 0) (SSL_write 1 1000 9000) initial_maps).

(** A record of another command ("ssh"), captured earlier. *)
Definition other_event : probe_SSL_data_t :=
  {| timestamp_ns := 4000; pid := 77;
     comm := [115; 115; 104; 0; 0; 0; 0; 0; 0; 0; 0; 0; 0; 0; 0; 0];
     v0 := replicate (Z.to_nat MAX_BUF_SIZE) 0; len := 0 |}.
(** Only process 181 is traced. *)
Definition args_pid181 : arguments :=
  {| args_pid := Some 181; args_comm := None; args_hexdump := false;
     bufs_max_entries := Z.to_nat 10240 |}.

(** Thread 9 of process 7. *)
Definition other : kernel :=
  {| current_pid_tgid := 7 * 2 ^ 32 + 9;
     ktime_get_ns := 6000;
     current_comm := [115; 115; 104; 0; 0; 0; 0; 0; 0; 0; 0; 0; 0; 0; 0; 0];
     user_mem := mem |}.

(** The record of the first five-byte write. *)
Definition short_write : probe_SSL_data_t :=
  the_event (fire args curl (regs 0) (SSL_write 1 1000 5) initial_maps).
(** The maps after thread 182 entered a read with a buffer at 19950, fifty
    bytes below the end of the readable memory. *)
Definition armed_short : bpf_maps :=
  maps (probe_SSL_read_enter args curl (regs 0) 1 19950 50 initial_maps).

(** Only the command "ssh" is shown. *)
Definition args_ssh : arguments :=
  {| args_pid := None; args_comm := Some "ssh"; args_hexdump := false;
     bufs_max_entries := Z.to_nat 10240 |}.
End Ex.

(** * Properties *)

(** ** Arithmetic of the copy size *)

Lemma MAX_BUF_SIZE_eq : MAX_BUF_SIZE = 8192.
Proof. reflexivity. Qed.

Lemma u32_range z : 0 ≤ u32 z < 2 ^ 32.
Proof. unfold u32. apply Z.mod_pos_bound. lia. Qed.

Lemma copy_size_min n : copy_size n = Z.min n (MAX_BUF_SIZE - 1).
Proof. unfold copy_size. destruct (Z.gtb_spec n (MAX_BUF_SIZE - 1)); lia. Qed.

Lemma copy_size_bounds n : 0 ≤ n → 0 ≤ copy_size n < MAX_BUF_SIZE.
Proof. rewrite copy_size_min, MAX_BUF_SIZE_eq. lia. Qed.

Global Arguments MAX_BUF_SIZE : simpl never.
Global Arguments u32 : simpl never.
Global Arguments copy_size : simpl never.

(** ** The user-memory read *)

Section probe_read.
Context (m : Z → option Z) (dst : list Z) (size src : Z).

Lemma probe_read_ok bytes :
  mapM m (seqZ src size) = Some bytes →
  bpf_probe_read_user m dst size src = (0, bytes ++ drop (Z.to_nat size) dst).
Proof. unfold bpf_probe_read_user. by intros ->. Qed.

Lemma probe_read_fault :
  mapM m (seqZ src size) = None →
  bpf_probe_read_user m dst size src
  = (-14, replicate (Z.to_nat size) 0 ++ drop (Z.to_nat size) dst).
Proof. unfold bpf_probe_read_user. by intros ->. Qed.

Lemma probe_read_ret r v :
  bpf_probe_read_user m dst size src = (r, v) →
  (r = 0 ∧ mapM m (seqZ src size) = Some (take (Z.to_nat size) v)) ∨
  (r = -14 ∧ mapM m (seqZ src size) = None
     ∧ take (Z.to_nat size) v = replicate (Z.to_nat size) 0).
Proof.
  unfold bpf_probe_read_user.
  destruct (mapM m (seqZ src size)) as [bytes|] eqn:E; intros [= <- <-].
  - left. split; [done|]. f_equal.
    apply length_mapM in E. rewrite length_seqZ in E.
    by rewrite take_app_length'.
  - right. split_and!; [done..|].
    by rewrite take_app_length' by (by rewrite length_replicate).
Qed.

Lemma probe_read_length r v :
  (Z.to_nat size ≤ length dst)%nat →
  bpf_probe_read_user m dst size src = (r, v) →
  length v = length dst.
Proof.
  intros Hle. unfold bpf_probe_read_user.
  destruct (mapM m (seqZ src size)) as [bytes|] eqn:E; intros [= <- <-];
    rewrite length_app, length_drop.
  - apply length_mapM in E. rewrite length_seqZ in E. lia.
  - rewrite length_replicate. lia.
Qed.
End probe_read.

(** ** Well-formed scratch records *)

Lemma slots_ok_lookup s d :
  slots_ok s → data_map s !! 0%nat = Some d → length (v0 d) = Z.to_nat MAX_BUF_SIZE.
Proof. intros Hs Hd. by apply (Forall_lookup_1 _ _ _ _ Hs Hd). Qed.

Lemma slots_ok_initial : slots_ok initial_maps.
Proof.
  constructor; [|constructor]. cbn [zero_data v0]. apply length_replicate.
Qed.

Lemma slots_ok_set_data d s :
  length (v0 d) = Z.to_nat MAX_BUF_SIZE → slots_ok s → slots_ok (set_data d s).
Proof.
  unfold slots_ok, set_data; cbn [data_map]. intros Hd Hs.
  destruct (data_map s) as [|d0 l]; [done|]. cbn.
  inversion_clear Hs. by constructor.
Qed.

Lemma terminator_lookup (l : list Z) n :
  0 ≤ n → length l = Z.to_nat MAX_BUF_SIZE →
  <[Z.to_nat (copy_size n) := 0]> l !! Z.to_nat (copy_size n) = Some 0.
Proof.
  intros Hn Hl. apply list_lookup_insert_eq.
  pose proof (copy_size_bounds n Hn). lia.
Qed.

(** ** What each handler does, path by path *)

(** [probe_SSL_write] past its three early returns. *)
Lemma probe_SSL_write_submits a k ctx ssl buf num s d0 :
  FILTER a (u32 (current_pid_tgid k ≫ 32)) = false →
  data_map s !! 0%nat = Some d0 →
  u32 num ≠ 4294967295 →
  ∃ pre v,
    let n := copy_size (u32 num) in
    let d := {| timestamp_ns := ktime_get_ns k;
                pid := u32 (current_pid_tgid k ≫ 32);
                comm := current_comm k;
                v0 := <[Z.to_nat n := 0]> v;
                len := u32 num |} in
    probe_SSL_write a k ctx ssl buf num s
      = return_ 0 (set_data d s) (pre ++ [perf_submit perf_SSL_write d]) ∧
    ((buf = 0 ∧ pre = [] ∧ v = v0 d0) ∨
     (buf ≠ 0 ∧ ∃ r, bpf_probe_read_user (user_mem k) (v0 d0) n buf = (r, v)
                     ∧ pre = [probe_read_user n buf r])).
Proof.
  intros Hf Hd Hn. unfold probe_SSL_write. rewrite Hf, Hd.
  apply Z.eqb_neq in Hn. rewrite Hn. fold (copy_size (u32 num)).
  destruct (Z.eqb_spec buf 0) as [->|Hb]; cbn [negb].
  - eexists [], (v0 d0). cbn. split; [reflexivity|]. by left.
  - cbn [set_comm set_len set_pid set_timestamp_ns v0].
    destruct (bpf_probe_read_user _ _ _ _) as [r v] eqn:E.
    eexists [probe_read_user _ buf r], v. cbn. split; [reflexivity|].
    right. split; [done|]. by exists r.
Qed.

Lemma emitted_nonempty tr x : x ∈ emitted tr → tr ≠ [].
Proof. intros Hin ->. by apply elem_of_nil in Hin. Qed.

(** A helper call by [probe_SSL_write] is made on that path only. *)
Lemma probe_SSL_write_calls_inv a k ctx ssl buf num s :
  calls (probe_SSL_write a k ctx ssl buf num s) ≠ [] →
  FILTER a (u32 (current_pid_tgid k ≫ 32)) = false ∧
  (∃ d0, data_map s !! 0%nat = Some d0) ∧
  u32 num ≠ 4294967295.
Proof.
  unfold probe_SSL_write.
  destruct (FILTER _ _); [done|].
  destruct (data_map s !! 0%nat) as [d0|]; [|done].
  destruct (Z.eqb_spec (u32 num) 4294967295); [done|].
  eauto.
Qed.

(** [probe_SSL_read_exit] past its four early returns. *)
Lemma probe_SSL_read_exit_submits a k ctx ssl buf num s bufp d0 :
  FILTER a (u32 (current_pid_tgid k ≫ 32)) = false →
  bufs s !! u32 (current_pid_tgid k) = Some bufp →
  data_map s !! 0%nat = Some d0 →
  u32 (PT_REGS_RC ctx) ≠ 4294967295 →
  ∃ r v,
    let n := copy_size (u32 (PT_REGS_RC ctx)) in
    let d := {| timestamp_ns := ktime_get_ns k;
                pid := u32 (current_pid_tgid k ≫ 32);
                comm := current_comm k;
                v0 := <[Z.to_nat n := 0]> v;
                len := u32 (PT_REGS_RC ctx) |} in
    probe_SSL_read_exit a k ctx ssl buf num s
      = return_ 0 (set_bufs (delete (u32 (current_pid_tgid k)) (bufs s)) (set_data d s))
          [probe_read_user n bufp r; perf_submit perf_SSL_read d] ∧
    bpf_probe_read_user (user_mem k) (v0 d0) n bufp = (r, v).
Proof.
  intros Hf Hb Hd Hn. unfold probe_SSL_read_exit. rewrite Hf, Hb, Hd.
  cbn [set_comm set_len set_pid set_timestamp_ns v0 len].
  apply Z.eqb_neq in Hn. rewrite Hn. fold (copy_size (u32 (PT_REGS_RC ctx))).
  destruct (bpf_probe_read_user _ _ _ _) as [r v] eqn:E.
  exists r, v. cbn. by split.
Qed.

Lemma probe_SSL_read_exit_calls_inv a k ctx ssl buf num s :
  calls (probe_SSL_read_exit a k ctx ssl buf num s) ≠ [] →
  FILTER a (u32 (current_pid_tgid k ≫ 32)) = false ∧
  (∃ bufp, bufs s !! u32 (current_pid_tgid k) = Some bufp) ∧
  (∃ d0, data_map s !! 0%nat = Some d0) ∧
  u32 (PT_REGS_RC ctx) ≠ 4294967295.
Proof.
  unfold probe_SSL_read_exit.
  destruct (FILTER _ _); [done|].
  destruct (bufs s !! _) as [bufp|]; [|done].
  destruct (data_map s !! 0%nat) as [d0|]; [|done].
  cbn [set_comm set_len set_pid set_timestamp_ns v0 len].
  destruct (Z.eqb_spec (u32 (PT_REGS_RC ctx)) 4294967295); [done|].
  eauto 10.
Qed.

Lemma probe_SSL_read_enter_calls a k ctx ssl buf num s :
  calls (probe_SSL_read_enter a k ctx ssl buf num s) = [].
Proof. unfold probe_SSL_read_enter. by destruct (FILTER _ _). Qed.

(** A handler run that makes a helper call ends with exactly one submitted
    record [d], terminated at its copy size, after at most one user-memory
    read of exactly that size into the scratch payload. *)
Lemma fire_calls_shape a k ctx p s :
  slots_ok s →
  calls (fire a k ctx p s) ≠ [] →
  ∃ ch d d0 v,
    let n := copy_size (len d) in
    data_map s !! 0%nat = Some d0 ∧
    0 ≤ len d ∧
    length v = Z.to_nat MAX_BUF_SIZE ∧
    v0 d = <[Z.to_nat n := 0]> v ∧
    v0 d !! Z.to_nat n = Some 0 ∧
    (calls (fire a k ctx p s) = [perf_submit ch d] ∧ v = v0 d0 ∨
     ∃ src r,
       calls (fire a k ctx p s) = [probe_read_user n src r; perf_submit ch d] ∧
       bpf_probe_read_user (user_mem k) (v0 d0) n src = (r, v)).
Proof.
  intros Hs Hne. destruct p as [ssl buf num|ssl buf num|ssl buf num]; cbn [fire] in *.
  - destruct (probe_SSL_write_calls_inv _ _ _ _ _ _ _ Hne) as (Hf & [d0 Hd] & Hn).
    destruct (probe_SSL_write_submits a k ctx ssl buf num s d0 Hf Hd Hn)
      as (pre & v & Heq & Hpre).
    cbn zeta in Heq.
    match type of Heq with
    | _ = return_ _ _ (_ ++ [perf_submit _ ?d]) => exists perf_SSL_write, d, d0, v
    end.
    rewrite Heq. cbn [calls return_].
    pose proof (slots_ok_lookup _ _ Hs Hd) as Hlen.
    pose proof (u32_range num) as Hu.
    pose proof (copy_size_bounds (u32 num) ltac:(lia)) as Hc.
    assert (length v = Z.to_nat MAX_BUF_SIZE) as Hv.
    { destruct Hpre as [(_ & _ & ->)|(_ & r & Hr & _)]; [done|].
      erewrite probe_read_length; [done| |exact Hr]. lia. }
    cbn [len v0].
    split_and!; [done|lia|done|done|by apply terminator_lookup; [lia|]|].
    destruct Hpre as [(_ & -> & ->)|(_ & r & Hr & ->)]; [by left|].
    right. by exists buf, r.
  - by rewrite probe_SSL_read_enter_calls in Hne.
  - destruct (probe_SSL_read_exit_calls_inv _ _ _ _ _ _ _ Hne)
      as (Hf & [bufp Hb] & [d0 Hd] & Hn).
    destruct (probe_SSL_read_exit_submits a k ctx ssl buf num s bufp d0 Hf Hb Hd Hn)
      as (r & v & Heq & Hr).
    cbn zeta in Heq.
    match type of Heq with
    | _ = return_ _ _ [_; perf_submit _ ?d] => exists perf_SSL_read, d, d0, v
    end.
    rewrite Heq. cbn [calls return_].
    pose proof (slots_ok_lookup _ _ Hs Hd) as Hlen.
    pose proof (u32_range (PT_REGS_RC ctx)) as Hu.
    pose proof (copy_size_bounds (u32 (PT_REGS_RC ctx)) ltac:(lia)) as Hc.
    assert (length v = Z.to_nat MAX_BUF_SIZE) as Hv.
    { erewrite probe_read_length; [done| |exact Hr]. lia. }
    cbn [len v0].
    split_and!; [done|lia|done|done|by apply terminator_lookup; [lia|]|].
    right. by exists bufp, r.
Qed.

(** The handlers always return 0. *)
Lemma fire_ret a k ctx p s : ret (fire a k ctx p s) = 0.
Proof.
  destruct p as [ssl buf num|ssl buf num|ssl buf num]; cbn [fire].
  - unfold probe_SSL_write.
    destruct (FILTER _ _); [done|]. destruct (data_map s !! 0%nat); [|done].
    destruct (_ =? _); [done|]. destruct (negb _); [|done].
    cbn. by destruct (bpf_probe_read_user _ _ _ _).
  - unfold probe_SSL_read_enter. by destruct (FILTER _ _).
  - unfold probe_SSL_read_exit.
    destruct (FILTER _ _); [done|]. destruct (bufs s !! _); [|done].
    destruct (data_map s !! 0%nat); [|done].
    destruct (_ =? _); [done|]. cbn. by destruct (bpf_probe_read_user _ _ _ _).
Qed.

(** ** Payload size and terminator of emitted records *)

(** C1 as stated fails: a write with a null buffer emits a record of length
    5 into which no byte was copied; its first five payload bytes are those
    the scratch record held before. *)
Lemma payload_count_fails_on_null_buffer :
  let r := fire Ex.args Ex.curl (Ex.regs 0) (SSL_write 1 0 5) Ex.used in
  emitted (calls r) = [(perf_SSL_write, Ex.the_event r)] ∧
  len (Ex.the_event r) = 5 ∧
  bytes_copied (calls r) = 0 ∧
  bytes_copied (calls r) ≠ Z.min (len (Ex.the_event r)) (MAX_BUF_SIZE - 1) ∧
  take 5 (v0 (Ex.the_event r)) = take 5 (v0 Ex.used_slot) ∧
  take 5 (v0 Ex.used_slot) = [248; 249; 250; 251; 1].
Proof. vm_compute. split_and!; done. Qed.

(** ** Sentinel length *)

(** C3. A call whose reported length is 4294967295 (the requested length in
    [probe_SSL_write], the return value as [u32] in [probe_SSL_read_exit])
    emits no event; the handler makes no helper call at all. *)
Theorem sentinel_length_emits_nothing a k ctx p s :
  reported_length ctx p = Some 4294967295 →
  emitted (calls (fire a k ctx p s)) = [] ∧ calls (fire a k ctx p s) = [].
Proof.
  intros Hlen.
  assert (calls (fire a k ctx p s) = []) as ->; [|done].
  destruct p as [ssl buf num|ssl buf num|ssl buf num]; cbn in Hlen; simplify_eq.
  - cbn [fire]. unfold probe_SSL_write.
    destruct (FILTER _ _); [done|].
    destruct (data_map s !! 0%nat); [|done].
    by rewrite Hlen.
  - cbn [fire]. unfold probe_SSL_read_exit.
    destruct (FILTER _ _); [done|].
    destruct (bufs s !! _); [|done].
    destruct (data_map s !! 0%nat); [|done].
    cbn [set_len len]. by rewrite Hlen.
Qed.

Lemma sentinel_length_emits_nothing_witness :
  reported_length (Ex.regs 4294967295) (SSL_read_exit 0 0 0) = Some 4294967295 ∧
  emitted (calls (fire Ex.args Ex.curl (Ex.regs 4294967295) (SSL_read_exit 0 0 0) Ex.armed)) = [] ∧
  calls (fire Ex.args Ex.curl (Ex.regs 4294967295) (SSL_read_exit 0 0 0) Ex.armed) = [].
Proof.
  split; [reflexivity|].
  apply (sentinel_length_emits_nothing Ex.args Ex.curl (Ex.regs 4294967295)
           (SSL_read_exit 0 0 0) Ex.armed).
  reflexivity.
Defined.

(** ** Null buffer *)

(** C9. [probe_SSL_write] entered with a null buffer and a length other than
    4294967295 still emits an event: no byte is copied, the zero at offset
    [copySize = min(length, capacity - 1)] is the only payload byte written,
    and every other payload byte is what the scratch record held before. *)
Theorem null_buffer_write_keeps_stale_bytes a k ctx ssl num s d0 :
  FILTER a (u32 (current_pid_tgid k ≫ 32)) = false →
  data_map s !! 0%nat = Some d0 →
  length (v0 d0) = Z.to_nat MAX_BUF_SIZE →
  u32 num ≠ 4294967295 →
  let r := probe_SSL_write a k ctx ssl 0 num s in
  let n := Z.to_nat (Z.min (u32 num) (MAX_BUF_SIZE - 1)) in
  ∃ d, calls r = [perf_submit perf_SSL_write d] ∧
       len d = u32 num ∧
       bytes_copied (calls r) = 0 ∧
       v0 d !! n = Some 0 ∧
       ∀ i, i ≠ n → v0 d !! i = v0 d0 !! i.
Proof.
  intros Hf Hd Hlen Hn. cbn zeta. rewrite <- copy_size_min.
  destruct (probe_SSL_write_submits a k ctx ssl 0 num s d0 Hf Hd Hn)
    as (pre & v & Heq & [(_ & -> & ->)|(? & _)]); [|done].
  cbn zeta in Heq. rewrite Heq. cbn [calls return_ app].
  eexists. split; [reflexivity|]. cbn [len v0].
  pose proof (u32_range num).
  split_and!; [done|done|apply terminator_lookup; [lia|done]|].
  intros i Hi. by apply list_lookup_insert_ne.
Qed.

Lemma null_buffer_write_keeps_stale_bytes_witness :
  FILTER Ex.args (u32 (current_pid_tgid Ex.curl ≫ 32)) = false ∧
  data_map Ex.used !! 0%nat = Some Ex.used_slot ∧
  length (v0 Ex.used_slot) = Z.to_nat MAX_BUF_SIZE ∧
  u32 5 ≠ 4294967295 ∧
  let r := probe_SSL_write Ex.args Ex.curl (Ex.regs 0) 1 0 5 Ex.used in
  let n := Z.to_nat (Z.min (u32 5) (MAX_BUF_SIZE - 1)) in
  ∃ d, calls r = [perf_submit perf_SSL_write d] ∧
       len d = u32 5 ∧
       bytes_copied (calls r) = 0 ∧
       v0 d !! n = Some 0 ∧
       ∀ i, i ≠ n → v0 d !! i = v0 Ex.used_slot !! i.
Proof.
  assert (u32 5 ≠ 4294967295) as Hn by (vm_compute; discriminate).
  split_and!; [reflexivity|reflexivity|reflexivity|exact Hn|].
  apply (null_buffer_write_keeps_stale_bytes Ex.args Ex.curl (Ex.regs 0) 1 5
           Ex.used Ex.used_slot); [reflexivity|reflexivity|reflexivity|exact Hn].
Defined.

(** ** Faulting copy *)

Lemma zero_prefix_terminated (v : list Z) n :
  (n < length v)%nat →
  take n v = replicate n 0 →
  take (S n) (<[n := 0]> v) = replicate (S n) 0.
Proof.
  intros Hn Hv.
  rewrite (take_S_r _ _ 0) by by apply list_lookup_insert_eq.
  rewrite take_insert_ge by lia. by rewrite Hv, replicate_S_end.
Qed.

(** C5, as amended. When the copy from the caller's address space faults,
    the capture is not aborted: the handler does not look at the result of
    the read, terminates the payload (whose bytes up to the copy size the
    failed read left zeroed) and still emits the event. The handler returns
    0, so the traced call goes on as usual. *)
Theorem faulting_copy_still_emits a k ctx p s size src r :
  slots_ok s →
  probe_read_user size src r ∈ calls (fire a k ctx p s) →
  r ≠ 0 →
  ∃ ch d,
    calls (fire a k ctx p s) = [probe_read_user size src r; perf_submit ch d] ∧
    emitted (calls (fire a k ctx p s)) = [(ch, d)] ∧
    mapM (user_mem k) (seqZ src size) = None ∧
    size = Z.min (len d) (MAX_BUF_SIZE - 1) ∧
    take (S (Z.to_nat size)) (v0 d) = replicate (S (Z.to_nat size)) 0 ∧
    ret (fire a k ctx p s) = 0.
Proof.
  intros Hs Hin Hr.
  assert (calls (fire a k ctx p s) ≠ []) as Hne.
  { intros E. rewrite E in Hin. by apply elem_of_nil in Hin. }
  destruct (fire_calls_shape a k ctx p s Hs Hne)
    as (ch & d & d0 & v & _ & Hlen & Hv & Hv0 & _ & Hshape).
  cbn zeta in *.
  destruct Hshape as [[Heq _]|(src' & r' & Heq & Hread)]; rewrite Heq in Hin |- *.
  { by apply list_elem_of_singleton in Hin. }
  apply elem_of_cons in Hin as [[= -> -> ->]|Hin];
    [|by apply list_elem_of_singleton in Hin].
  exists ch, d. rewrite <- copy_size_min.
  split_and!; [done|done| | | |apply fire_ret].
  - by destruct (probe_read_ret _ _ _ _ _ _ Hread) as [[? _]|(_ & ? & _)].
  - done.
  - destruct (probe_read_ret _ _ _ _ _ _ Hread) as [[? _]|(_ & _ & Hz)]; [done|].
    rewrite Hv0. apply zero_prefix_terminated; [|done].
    pose proof (copy_size_bounds _ Hlen). lia.
Qed.

Lemma faulting_copy_still_emits_witness :
  slots_ok Ex.used ∧
  let r := fire Ex.args Ex.curl (Ex.regs 0) (SSL_write 1 5 3) Ex.used in
  probe_read_user 3 5 (-14) ∈ calls r ∧
  -14 ≠ 0 ∧
  ∃ ch d,
    calls r = [probe_read_user 3 5 (-14); perf_submit ch d] ∧
    emitted (calls r) = [(ch, d)] ∧
    mapM (user_mem Ex.curl) (seqZ 5 3) = None ∧
    3 = Z.min (len d) (MAX_BUF_SIZE - 1) ∧
    take (S (Z.to_nat 3)) (v0 d) = replicate (S (Z.to_nat 3)) 0 ∧
    ret r = 0.
Proof.
  assert (slots_ok Ex.used) as Hs.
  { apply slots_ok_set_data; [reflexivity|exact slots_ok_initial]. }
  assert (probe_read_user 3 5 (-14)
          ∈ calls (fire Ex.args Ex.curl (Ex.regs 0) (SSL_write 1 5 3) Ex.used))
    as Hin by exact (list_elem_of_here _ _).
  split; [exact Hs|]. cbn zeta. split; [exact Hin|]. split; [discriminate|].
  apply (faulting_copy_still_emits Ex.args Ex.curl (Ex.regs 0) (SSL_write 1 5 3)
           Ex.used 3 5 (-14) Hs Hin).
  discriminate.
Defined.

(** C5 as stated fails: a write of three bytes from the unreadable address 5
    faults in the copy, and the record is submitted all the same. *)
Lemma faulting_copy_is_not_aborted :
  let r := fire Ex.args Ex.curl (Ex.regs 0) (SSL_write 1 5 3) Ex.used in
  mapM (user_mem Ex.curl) (seqZ 5 3) = None ∧
  calls r = [probe_read_user 3 5 (-14); perf_submit perf_SSL_write (Ex.the_event r)] ∧
  emitted (calls r) = [(perf_SSL_write, Ex.the_event r)] ∧
  emitted (calls r) ≠ [] ∧
  len (Ex.the_event r) = 3.
Proof. vm_compute. split_and!; done. Qed.

(** ** The correlation table *)

(** Read Exit without a pending entry: no helper call, nothing changes. *)
Lemma read_exit_without_entry a k ctx ssl buf num s :
  bufs s !! u32 (current_pid_tgid k) = None →
  probe_SSL_read_exit a k ctx ssl buf num s = return_ 0 s [].
Proof.
  intros Hb. unfold probe_SSL_read_exit. rewrite Hb. by destruct (FILTER _ _).
Qed.

(** Read Exit that emits: the entry of the current thread is gone. *)
Lemma read_exit_emitting_removes a k ctx ssl buf num s :
  calls (probe_SSL_read_exit a k ctx ssl buf num s) ≠ [] →
  bufs (maps (probe_SSL_read_exit a k ctx ssl buf num s)) !! u32 (current_pid_tgid k)
  = None.
Proof.
  intros Hne.
  destruct (probe_SSL_read_exit_calls_inv _ _ _ _ _ _ _ Hne)
    as (Hf & [bufp Hb] & [d0 Hd] & Hn).
  destruct (probe_SSL_read_exit_submits a k ctx ssl buf num s bufp d0 Hf Hb Hd Hn)
    as (r & v & Heq & _).
  cbn zeta in Heq. rewrite Heq. cbn [maps return_ set_bufs bufs].
  apply lookup_delete_eq.
Qed.

(** Read Exit returning at the sentinel test: the pending entry stays. *)
Lemma read_exit_sentinel_keeps_entry a k ctx ssl buf num s :
  u32 (PT_REGS_RC ctx) = 4294967295 →
  bufs (maps (probe_SSL_read_exit a k ctx ssl buf num s)) = bufs s.
Proof.
  intros Hn. unfold probe_SSL_read_exit.
  destruct (FILTER _ _); [done|]. destruct (bufs s !! _); [|done].
  destruct (data_map s !! 0%nat); [|done].
  cbn [set_len len]. by rewrite Hn.
Qed.

(** C2, at the input where the code departs from it. Thread 182 has a
    pending entry (buffer 1000) and its read returns -1: Read Exit emits
    nothing and the entry is still in the table afterwards, where the claim
    has it removed whether or not an event is emitted. *)
Lemma read_exit_sentinel_leaves_entry :
  let r := probe_SSL_read_exit Ex.args Ex.curl (Ex.regs 4294967295) 0 0 0 Ex.armed in
  u32 (current_pid_tgid Ex.curl) = 182 ∧
  bufs Ex.armed !! 182 = Some 1000 ∧
  emitted (calls r) = [] ∧
  bufs (maps r) !! 182 = Some 1000.
Proof. vm_compute. split_and!; reflexivity. Qed.

(** C6. A Read Entry by a thread that already has a pending entry replaces
    that entry: afterwards the table maps the thread to the new pointer only,
    has as many entries as before, and is unchanged for every other thread.
    Whatever handlers have run, the table never lists a thread twice. *)
Theorem read_enter_overwrites a k ctx ssl buf num s old :
  FILTER a (u32 (current_pid_tgid k ≫ 32)) = false →
  bufs s !! u32 (current_pid_tgid k) = Some old →
  let tid := u32 (current_pid_tgid k) in
  let m' := bufs (maps (probe_SSL_read_enter a k ctx ssl buf num s)) in
  m' !! tid = Some buf ∧
  (∀ b, (tid, b) ∈ map_to_list m' → b = buf) ∧
  size m' = size (bufs s) ∧
  (∀ t, t ≠ tid → m' !! t = bufs s !! t) ∧
  ∀ ps, NoDup (map_to_list (bufs (fire_all a ps (maps
            (probe_SSL_read_enter a k ctx ssl buf num s))).1)).*1.
Proof.
  intros Hf Hold. cbn zeta. unfold probe_SSL_read_enter. rewrite Hf.
  cbn [maps return_ set_bufs bufs]. unfold bufs_update. rewrite Hold.
  split_and!.
  - apply lookup_insert_eq.
  - intros b Hb. apply elem_of_map_to_list in Hb.
    rewrite lookup_insert_eq in Hb. congruence.
  - by apply map_size_insert_Some.
  - intros t Ht. by apply lookup_insert_ne.
  - intros ps. apply NoDup_fst_map_to_list.
Qed.

Lemma read_enter_overwrites_witness :
  FILTER Ex.args (u32 (current_pid_tgid Ex.curl ≫ 32)) = false ∧
  bufs Ex.armed !! u32 (current_pid_tgid Ex.curl) = Some 1000 ∧
  let m' := bufs (maps (probe_SSL_read_enter Ex.args Ex.curl (Ex.regs 0) 1 2000 100 Ex.armed)) in
  m' !! u32 (current_pid_tgid Ex.curl) = Some 2000 ∧
  (∀ b, (u32 (current_pid_tgid Ex.curl), b) ∈ map_to_list m' → b = 2000) ∧
  size m' = size (bufs Ex.armed) ∧
  (∀ t, t ≠ u32 (current_pid_tgid Ex.curl) → m' !! t = bufs Ex.armed !! t) ∧
  ∀ ps, NoDup (map_to_list (bufs (fire_all Ex.args ps (maps
            (probe_SSL_read_enter Ex.args Ex.curl (Ex.regs 0) 1 2000 100 Ex.armed))).1)).*1.
Proof.
  split; [reflexivity|]. split; [reflexivity|].
  apply (read_enter_overwrites Ex.args Ex.curl (Ex.regs 0) 1 2000 100 Ex.armed 1000);
    reflexivity.
Defined.

(** ** Consumer: end marker *)

Section consumer_facts.
Context (decode : list Z → string) (fill : string → Z → string).
Context (args : arguments).

Lemma print_event_e_mark start event rw start' b :
  print_event decode fill args start event rw = (start', Some b) →
  p_len b = len event ∧
  p_e_mark b =
    if len event - MAX_BUF_SIZE >? 0 then
      "----- END DATA (TRUNCATED, " +:+ pretty (len event - MAX_BUF_SIZE)
        +:+ " bytes lost) -----"
    else "----- END DATA -----".
Proof.
  unfold print_event.
  destruct (comm_filter args) as [c|]; [destruct (bool_decide _); cbn [negb]|];
    [|done|]; intros [= _ <-]; cbn [p_len p_e_mark]; (split; [done|]);
    by destruct (_ >? 0).
Qed.

(** Once the baseline is set it stays. *)
Lemma print_event_start_set start event rw :
  start ≠ 0 → (print_event decode fill args start event rw).1 = start.
Proof.
  intros Hs. unfold print_event. apply Z.eqb_neq in Hs.
  destruct (comm_filter args) as [c|]; [destruct (bool_decide _); cbn [negb]|];
    [|done|]; cbn; by rewrite Hs.
Qed.

Lemma poll_start_set start evs :
  start ≠ 0 → (poll decode fill args start evs).1 = start.
Proof.
  revert start. induction evs as [|[ch event] evs IH]; intros start Hs; [done|].
  cbn [poll].
  pose proof (print_event_start_set start event
                (match ch with perf_SSL_write => "WRITE/SEND" | _ => "READ/RECV" end) Hs)
    as Hp.
  assert (callback decode fill args ch start event
          = print_event decode fill args start event
              (match ch with perf_SSL_write => "WRITE/SEND" | _ => "READ/RECV" end))
    as -> by by destruct ch.
  destruct (print_event _ _ _ _ _ _) as [start1 out]. cbn in Hp. subst start1.
  specialize (IH start Hs). destruct (poll _ _ _ _ _) as [start2 outs]. done.
Qed.

(** An event the command filter rejects changes nothing and prints nothing. *)
Lemma print_event_dropped c start event rw :
  comm_filter args = Some c →
  decode (c_char_value (comm event)) ≠ c →
  print_event decode fill args start event rw = (start, None).
Proof.
  intros Hc Hne. unfold print_event. rewrite Hc.
  rewrite bool_decide_eq_false_2; [done|]. congruence.
Qed.

Lemma callback_dropped c ch start event :
  comm_filter args = Some c →
  decode (c_char_value (comm event)) ≠ c →
  callback decode fill args ch start event = (start, None).
Proof. intros. destruct ch; by eapply print_event_dropped. Qed.

End consumer_facts.

(** C4. For every event the consumer renders: when its length field is
    greater than the capacity 8192 the end marker reports exactly
    [length - capacity] bytes lost; when it is at most the capacity the plain
    end marker is rendered. *)
Theorem end_marker_reports_lost_bytes decode fill args start event rw start' b :
  print_event decode fill args start event rw = (start', Some b) →
  MAX_BUF_SIZE = 8192 ∧
  (len event > MAX_BUF_SIZE →
     p_e_mark b = "----- END DATA (TRUNCATED, " +:+ pretty (len event - MAX_BUF_SIZE)
                    +:+ " bytes lost) -----") ∧
  (len event ≤ MAX_BUF_SIZE → p_e_mark b = "----- END DATA -----").
Proof.
  intros Hp. apply print_event_e_mark in Hp as [_ ->].
  split; [reflexivity|].
  destruct (Z.gtb_spec (len event - MAX_BUF_SIZE) 0); split; intros; (done || lia).
Qed.

Lemma end_marker_reports_lost_bytes_witness :
  let out := print_event Ex.decode Ex.fill Ex.args 0 Ex.long_write "WRITE/SEND" in
  out = (5000, Some (Ex.the_block out)) ∧
  MAX_BUF_SIZE = 8192 ∧
  (len Ex.long_write > MAX_BUF_SIZE →
     p_e_mark (Ex.the_block out)
     = "----- END DATA (TRUNCATED, " +:+ pretty (len Ex.long_write - MAX_BUF_SIZE)
         +:+ " bytes lost) -----") ∧
  (len Ex.long_write ≤ MAX_BUF_SIZE →
     p_e_mark (Ex.the_block out) = "----- END DATA -----").
Proof.
  cbn zeta.
  assert (print_event Ex.decode Ex.fill Ex.args 0 Ex.long_write "WRITE/SEND"
          = (5000, Some (Ex.the_block
               (print_event Ex.decode Ex.fill Ex.args 0 Ex.long_write "WRITE/SEND"))))
    as Hp by (vm_compute; reflexivity).
  split; [exact Hp|].
  exact (end_marker_reports_lost_bytes Ex.decode Ex.fill Ex.args 0 Ex.long_write
           "WRITE/SEND" 5000 _ Hp).
Defined.

(** Scenario D: a write of 9000 bytes is rendered with length 9000 and 808
    bytes reported lost; 8191 bytes were captured, then the terminator. *)
Example scenario_D :
  let out := Ex.the_block
               (print_event Ex.decode Ex.fill Ex.args 0 Ex.long_write "WRITE/SEND") in
  p_len out = 9000 ∧
  p_e_mark out = "----- END DATA (TRUNCATED, 808 bytes lost) -----" ∧
  take (Z.to_nat 8191) (v0 Ex.long_write) = default [] (mapM Ex.mem (seqZ 1000 8191)) ∧
  v0 Ex.long_write !! Z.to_nat 8191 = Some 0.
Proof. vm_compute. split_and!; reflexivity. Qed.

(** ** Consumer: command filter and baseline *)

Lemma comm_filter_configured args c :
  args_comm args = Some c → c ≠ "" → comm_filter args = Some c.
Proof. intros Hc Hne. unfold comm_filter. rewrite Hc. by destruct (decide _). Qed.

Lemma callback_first_survivor decode fill args c ch event :
  comm_filter args = Some c →
  decode (c_char_value (comm event)) = c →
  (callback decode fill args ch 0 event).1 = timestamp_ns event.
Proof.
  intros Hc Hd.
  assert ((print_event decode fill args 0 event
             (match ch with perf_SSL_write => "WRITE/SEND" | _ => "READ/RECV" end)).1
          = timestamp_ns event) as Hp.
  { unfold print_event. rewrite Hc, Hd. by rewrite bool_decide_eq_true_2. }
  by destruct ch.
Qed.

Lemma poll_filter decode fill args c start evs :
  comm_filter args = Some c →
  poll decode fill args start evs
  = poll decode fill args start
      (filter (λ e, decode (c_char_value (comm e.2)) = c) evs).
Proof.
  intros Hc. revert start.
  induction evs as [|[ch event] evs IH]; intros start; [done|].
  destruct (decide (decode (c_char_value (comm event)) = c)) as [He|He].
  - rewrite filter_cons_True by done. cbn [poll].
    destruct (callback _ _ _ _ _ _) as [start1 out]. by rewrite IH.
  - rewrite filter_cons_False by done. cbn [poll].
    rewrite (callback_dropped decode fill args c ch start event Hc He).
    rewrite IH. by destruct (poll _ _ _ _ _).
Qed.

(** C7. With a command filter configured, every event whose decoded command
    differs from the filter string is dropped: nothing is printed for it and
    the baseline [start] is left as it was. The polling loop gives the same
    baseline and the same output as on the surviving events alone, and the
    baseline is the timestamp of the first event that survives. *)
Theorem command_filter_drops_before_baseline decode fill args c :
  args_comm args = Some c →
  c ≠ "" →
  (∀ start event rw,
     decode (c_char_value (comm event)) ≠ c →
     print_event decode fill args start event rw = (start, None)) ∧
  (∀ start evs,
     poll decode fill args start evs
     = poll decode fill args start
         (filter (λ e, decode (c_char_value (comm e.2)) = c) evs)) ∧
  (∀ pre ch event post,
     Forall (λ e, decode (c_char_value (comm e.2)) ≠ c) pre →
     decode (c_char_value (comm event)) = c →
     timestamp_ns event ≠ 0 →
     (poll decode fill args 0 (pre ++ (ch, event) :: post)).1 = timestamp_ns event).
Proof.
  intros Hc Hne. pose proof (comm_filter_configured args c Hc Hne) as Hf.
  split_and!.
  - intros start event rw Hd. by eapply print_event_dropped.
  - intros start evs. by apply poll_filter.
  - intros pre ch event post Hpre Hev Hts.
    rewrite (poll_filter decode fill args c 0 _ Hf).
    rewrite filter_app, filter_cons_True by done.
    assert (filter (λ e : perf_output * probe_SSL_data_t,
                      decode (c_char_value (comm e.2)) = c) pre = []) as ->.
    { induction Hpre as [|e pre He _ IH]; [done|].
      by rewrite filter_cons_False. }
    cbn [app poll].
    pose proof (callback_first_survivor decode fill args c ch event Hf Hev) as Hcb.
    destruct (callback _ _ _ _ _ _) as [start1 out]. cbn in Hcb. subst start1.
    pose proof (poll_start_set decode fill args (timestamp_ns event)
                  (filter (λ e, decode (c_char_value (comm e.2)) = c) post) Hts) as Hp.
    by destruct (poll _ _ _ _ _).
Qed.

Lemma command_filter_drops_before_baseline_witness :
  args_comm Ex.args_curl = Some "curl" ∧
  "curl" ≠ "" ∧
  (∀ start event rw,
     Ex.decode (c_char_value (comm event)) ≠ "curl" →
     print_event Ex.decode Ex.fill Ex.args_curl start event rw = (start, None)) ∧
  (∀ start evs,
     poll Ex.decode Ex.fill Ex.args_curl start evs
     = poll Ex.decode Ex.fill Ex.args_curl start
         (filter (λ e, Ex.decode (c_char_value (comm e.2)) = "curl") evs)) ∧
  (∀ pre ch event post,
     Forall (λ e, Ex.decode (c_char_value (comm e.2)) ≠ "curl") pre →
     Ex.decode (c_char_value (comm event)) = "curl" →
     timestamp_ns event ≠ 0 →
     (poll Ex.decode Ex.fill Ex.args_curl 0 (pre ++ (ch, event) :: post)).1
     = timestamp_ns event).
Proof.
  split; [reflexivity|]. split; [discriminate|].
  apply (command_filter_drops_before_baseline Ex.decode Ex.fill Ex.args_curl "curl");
    [reflexivity|discriminate].
Defined.

(** An "ssh" record ahead of a "curl" record under [-c curl]: only the
    second is printed, and the baseline is its timestamp, not 4000. *)
Example filtered_event_does_not_seed_baseline :
  let out := poll Ex.decode Ex.fill Ex.args_curl 0
               [(perf_SSL_read, Ex.other_event); (perf_SSL_write, Ex.long_write)] in
  out.1 = 5000 ∧ p_comm <$> out.2 = ["curl"] ∧ p_time_ns <$> out.2 = [0].
Proof. vm_compute. split_and!; reflexivity. Qed.

(** ** Read Exit: where the payload comes from *)

Lemma probe_read_payload m dst n src r v bytes :
  bpf_probe_read_user m dst n src = (r, v) →
  mapM m (seqZ src n) = Some bytes →
  r = 0 ∧ take (Z.to_nat n) (<[Z.to_nat n := 0]> v) = bytes.
Proof.
  intros Hr Hb. rewrite (probe_read_ok _ _ _ _ _ Hb) in Hr.
  injection Hr as <- <-. split; [done|].
  rewrite take_insert_ge by lia.
  apply length_mapM in Hb. rewrite length_seqZ in Hb.
  by rewrite take_app_length'.
Qed.

(** The entry a thread's Read Entry leaves is the pointer it was entered
    with, whenever there is an entry at all. *)
Lemma read_enter_saved_pointer a k ctx ssl buf num s bufp :
  FILTER a (u32 (current_pid_tgid k ≫ 32)) = false →
  bufs (maps (probe_SSL_read_enter a k ctx ssl buf num s)) !! u32 (current_pid_tgid k)
  = Some bufp →
  bufp = buf.
Proof.
  intros Hf. unfold probe_SSL_read_enter. rewrite Hf.
  cbn [maps return_ set_bufs bufs]. unfold bufs_update.
  destruct (bufs s !! u32 (current_pid_tgid k)) as [old|] eqn:Hold.
  - rewrite lookup_insert_eq. congruence.
  - destruct (decide _).
    + rewrite lookup_insert_eq. congruence.
    + rewrite Hold. done.
Qed.

(** C8. A read event's payload is copied from the pointer found in the table
    entry of the current thread, the one its Read Entry stored, with copy
    size [min(actualLength, capacity - 1)]; the arguments Read Exit is
    entered with play no part. *)
Theorem read_exit_copies_from_saved_pointer a k ctx ssl buf num s ch d :
  slots_ok s →
  (ch, d) ∈ emitted (calls (probe_SSL_read_exit a k ctx ssl buf num s)) →
  let n := Z.min (len d) (MAX_BUF_SIZE - 1) in
  ∃ bufp r,
    bufs s !! u32 (current_pid_tgid k) = Some bufp ∧
    ch = perf_SSL_read ∧
    len d = u32 (PT_REGS_RC ctx) ∧
    calls (probe_SSL_read_exit a k ctx ssl buf num s)
      = [probe_read_user n bufp r; perf_submit perf_SSL_read d] ∧
    (∀ bytes, mapM (user_mem k) (seqZ bufp n) = Some bytes →
              r = 0 ∧ take (Z.to_nat n) (v0 d) = bytes) ∧
    (∀ k0 ctx0 ssl0 buf0 num0 s0,
       current_pid_tgid k0 = current_pid_tgid k →
       s = maps (probe_SSL_read_enter a k0 ctx0 ssl0 buf0 num0 s0) →
       bufp = buf0) ∧
    ∀ ssl' buf' num',
      probe_SSL_read_exit a k ctx ssl' buf' num' s
      = probe_SSL_read_exit a k ctx ssl buf num s.
Proof.
  intros Hs Hin. cbn zeta.
  destruct (probe_SSL_read_exit_calls_inv _ _ _ _ _ _ _ (emitted_nonempty _ _ Hin))
    as (Hf & [bufp Hb] & [d0 Hd] & Hn).
  destruct (probe_SSL_read_exit_submits a k ctx ssl buf num s bufp d0 Hf Hb Hd Hn)
    as (r & v & Heq & Hr).
  cbn zeta in Heq. rewrite Heq in Hin |- *. cbn [calls return_] in *.
  cbn in Hin. apply list_elem_of_singleton in Hin as [= -> ->]. cbn [len v0].
  rewrite <- copy_size_min.
  exists bufp, r. split_and!; [done..| | |].
  - intros bytes Hbytes. by eapply probe_read_payload.
  - intros k0 ctx0 ssl0 buf0 num0 s0 Hk ->.
    rewrite <- Hk in Hf, Hb. by eapply read_enter_saved_pointer.
  - intros ssl' buf' num'. by rewrite <- Heq.
Qed.

Lemma read_exit_copies_from_saved_pointer_witness :
  slots_ok Ex.armed ∧
  let r := probe_SSL_read_exit Ex.args Ex.curl (Ex.regs 10) 7 7 7 Ex.armed in
  let d := Ex.the_event r in
  (perf_SSL_read, d) ∈ emitted (calls r) ∧
  let n := Z.min (len d) (MAX_BUF_SIZE - 1) in
  ∃ bufp rc,
    bufs Ex.armed !! u32 (current_pid_tgid Ex.curl) = Some bufp ∧
    perf_SSL_read = perf_SSL_read ∧
    len d = u32 (PT_REGS_RC (Ex.regs 10)) ∧
    calls r = [probe_read_user n bufp rc; perf_submit perf_SSL_read d] ∧
    (∀ bytes, mapM (user_mem Ex.curl) (seqZ bufp n) = Some bytes →
              rc = 0 ∧ take (Z.to_nat n) (v0 d) = bytes) ∧
    (∀ k0 ctx0 ssl0 buf0 num0 s0,
       current_pid_tgid k0 = current_pid_tgid Ex.curl →
       Ex.armed = maps (probe_SSL_read_enter Ex.args k0 ctx0 ssl0 buf0 num0 s0) →
       bufp = buf0) ∧
    ∀ ssl' buf' num',
      probe_SSL_read_exit Ex.args Ex.curl (Ex.regs 10) ssl' buf' num' Ex.armed = r.
Proof.
  assert (slots_ok Ex.armed) as Hs by exact slots_ok_initial.
  assert ((perf_SSL_read,
           Ex.the_event (probe_SSL_read_exit Ex.args Ex.curl (Ex.regs 10) 7 7 7 Ex.armed))
          ∈ emitted (calls (probe_SSL_read_exit Ex.args Ex.curl (Ex.regs 10) 7 7 7 Ex.armed)))
    as Hin by exact (list_elem_of_here _ _).
  split; [exact Hs|]. cbn zeta. split; [exact Hin|].
  exact (read_exit_copies_from_saved_pointer _ _ _ _ _ _ _ _ _ Hs Hin).
Defined.

(** Scenario B: ten bytes arrive in a read entered with buffer 1000: one
    READ record of length 10 whose payload is those ten bytes, read from
    address 1000 although Read Exit is entered with 7 in every argument. *)
Example scenario_B :
  let r := probe_SSL_read_exit Ex.args Ex.curl (Ex.regs 10) 7 7 7 Ex.armed in
  calls r = [probe_read_user 10 1000 0; perf_submit perf_SSL_read (Ex.the_event r)] ∧
  len (Ex.the_event r) = 10 ∧
  Some (take 10 (v0 (Ex.the_event r))) = mapM Ex.mem (seqZ 1000 10) ∧
  (print_event Ex.decode Ex.fill Ex.args 0 (Ex.the_event r) "READ/RECV").2
    ≫= (λ b, Some (p_e_mark b)) = Some "----- END DATA -----".
Proof. vm_compute. split_and!; reflexivity. Qed.

(** ** Payload of emitted records *)

Lemma probe_read_fault_payload m dst n src r v :
  bpf_probe_read_user m dst n src = (r, v) →
  mapM m (seqZ src n) = None →
  r = -14 ∧ take (Z.to_nat n) (<[Z.to_nat n := 0]> v) = replicate (Z.to_nat n) 0.
Proof.
  intros Hr Hm.
  destruct (probe_read_ret _ _ _ _ _ _ Hr) as [[_ ?]|(-> & _ & Hz)]; [congruence|].
  split; [done|]. by rewrite take_insert_ge by lia.
Qed.

(** C1, as amended. For every record emitted by [probe_SSL_write] or
    [probe_SSL_read_exit], the payload byte at offset
    [n = min(length, capacity - 1)] is zero. The handler copies from the
    buffer it is given ([probe_SSL_write], unless that buffer is null) or
    from the pointer saved in the table ([probe_SSL_read_exit], always).
    When the [n] bytes there are readable, exactly [n] bytes are copied and
    they are the first [n] payload bytes. When the read faults no byte is
    copied and those payload bytes are zero. When [probe_SSL_write] is given
    a null buffer no read is made, no byte is copied and those payload bytes
    are the ones the scratch record held. *)
Theorem emitted_payload_count a k ctx p s ch d :
  slots_ok s →
  (ch, d) ∈ emitted (calls (fire a k ctx p s)) →
  let n := Z.min (len d) (MAX_BUF_SIZE - 1) in
  let tr := calls (fire a k ctx p s) in
  let copied_from src :=
    (∀ bytes, mapM (user_mem k) (seqZ src n) = Some bytes →
       tr = [probe_read_user n src 0; perf_submit ch d] ∧
       bytes_copied tr = n ∧
       take (Z.to_nat n) (v0 d) = bytes) ∧
    (mapM (user_mem k) (seqZ src n) = None →
       tr = [probe_read_user n src (-14); perf_submit ch d] ∧
       bytes_copied tr = 0 ∧
       take (Z.to_nat n) (v0 d) = replicate (Z.to_nat n) 0) in
  v0 d !! Z.to_nat n = Some 0 ∧
  match p with
  | SSL_write _ buf _ =>
      if buf =? 0 then
        tr = [perf_submit ch d] ∧
        bytes_copied tr = 0 ∧
        ∃ d0, data_map s !! 0%nat = Some d0 ∧
              take (Z.to_nat n) (v0 d) = take (Z.to_nat n) (v0 d0)
      else copied_from buf
  | SSL_read_enter _ _ _ => False
  | SSL_read_exit _ _ _ =>
      ∃ bufp, bufs s !! u32 (current_pid_tgid k) = Some bufp ∧ copied_from bufp
  end.
Proof.
  intros Hs Hin. cbn zeta. rewrite <- copy_size_min.
  destruct p as [ssl buf num|ssl buf num|ssl buf num]; cbn [fire] in *.
  - destruct (probe_SSL_write_calls_inv _ _ _ _ _ _ _ (emitted_nonempty _ _ Hin))
      as (Hf & [d0 Hd] & Hn).
    destruct (probe_SSL_write_submits a k ctx ssl buf num s d0 Hf Hd Hn)
      as (pre & v & Heq & Hpre).
    cbn zeta in Heq. rewrite Heq in Hin |- *. cbn [calls return_] in *.
    pose proof (slots_ok_lookup _ _ Hs Hd) as Hlen.
    pose proof (u32_range num) as Hu.
    pose proof (copy_size_bounds (u32 num) ltac:(lia)) as Hc.
    destruct Hpre as [(-> & -> & ->)|(Hb & r & Hr & ->)].
    + cbn in Hin. apply list_elem_of_singleton in Hin as [= -> ->]. cbn [len v0].
      split; [apply terminator_lookup; [lia|done]|]. cbn [Z.eqb app].
      split_and!; [done|done|]. exists d0. split; [done|].
      by rewrite take_insert_ge by lia.
    + cbn in Hin. apply list_elem_of_singleton in Hin as [= -> ->]. cbn [len v0 app].
      split.
      * apply terminator_lookup; [lia|].
        erewrite probe_read_length; [done| |exact Hr]. lia.
      * apply Z.eqb_neq in Hb as ->. split.
        -- intros bytes Hbytes.
           destruct (probe_read_payload _ _ _ _ _ _ _ Hr Hbytes) as [-> Ht].
           split_and!; [done|cbn; lia|done].
        -- intros Hfault.
           destruct (probe_read_fault_payload _ _ _ _ _ _ Hr Hfault) as [-> Ht].
           by split_and!.
  - rewrite probe_SSL_read_enter_calls in Hin. by apply elem_of_nil in Hin.
  - destruct (probe_SSL_read_exit_calls_inv _ _ _ _ _ _ _ (emitted_nonempty _ _ Hin))
      as (Hf & [bufp Hb] & [d0 Hd] & Hn).
    destruct (probe_SSL_read_exit_submits a k ctx ssl buf num s bufp d0 Hf Hb Hd Hn)
      as (r & v & Heq & Hr).
    cbn zeta in Heq. rewrite Heq in Hin |- *. cbn [calls return_] in *.
    pose proof (slots_ok_lookup _ _ Hs Hd) as Hlen.
    pose proof (u32_range (PT_REGS_RC ctx)) as Hu.
    pose proof (copy_size_bounds (u32 (PT_REGS_RC ctx)) ltac:(lia)) as Hc.
    cbn in Hin. apply list_elem_of_singleton in Hin as [= -> ->]. cbn [len v0].
    split.
    + apply terminator_lookup; [lia|].
      erewrite probe_read_length; [done| |exact Hr]. lia.
    + exists bufp. split; [done|]. split.
      * intros bytes Hbytes.
        destruct (probe_read_payload _ _ _ _ _ _ _ Hr Hbytes) as [-> Ht].
        split_and!; [done|cbn; lia|done].
      * intros Hfault.
        destruct (probe_read_fault_payload _ _ _ _ _ _ Hr Hfault) as [-> Ht].
        by split_and!.
Qed.

(** The theorem at a write of five readable bytes: five bytes are copied and
    they are the payload. *)
Lemma emitted_payload_count_witness :
  let r := fire Ex.args Ex.curl (Ex.regs 0) (SSL_write 1 1000 5) initial_maps in
  let d := Ex.the_event r in
  slots_ok initial_maps ∧
  (perf_SSL_write, d) ∈ emitted (calls r) ∧
  v0 d !! Z.to_nat (Z.min (len d) (MAX_BUF_SIZE - 1)) = Some 0 ∧
  calls r = [probe_read_user 5 1000 0; perf_submit perf_SSL_write d] ∧
  bytes_copied (calls r) = Z.min (len d) (MAX_BUF_SIZE - 1) ∧
  take (Z.to_nat (Z.min (len d) (MAX_BUF_SIZE - 1))) (v0 d) = [248; 249; 250; 251; 1].
Proof.
  cbn zeta.
  assert ((perf_SSL_write,
           Ex.the_event (fire Ex.args Ex.curl (Ex.regs 0) (SSL_write 1 1000 5) initial_maps))
          ∈ emitted (calls (fire Ex.args Ex.curl (Ex.regs 0) (SSL_write 1 1000 5) initial_maps)))
    as Hin by exact (list_elem_of_here _ _).
  split; [exact slots_ok_initial|]. split; [exact Hin|].
  destruct (emitted_payload_count Ex.args Ex.curl (Ex.regs 0) (SSL_write 1 1000 5)
              initial_maps perf_SSL_write _ slots_ok_initial Hin) as [Hz [Hok _]].
  split; [exact Hz|].
  exact (Hok [248; 249; 250; 251; 1] eq_refl).
Defined.

(** ** Read Exit: negative return values *)

(** A read that returns -2 after being entered with buffer 1000: 8191 bytes
    are captured and the record is rendered as truncated. A read that
    returns -1 emits nothing (the sentinel). *)
Example read_returning_minus_two :
  let res := probe_SSL_read_exit Ex.args Ex.curl (Ex.regs 4294967294) 7 7 7 Ex.armed in
  bytes_copied (calls res) = 8191 ∧
  len (Ex.the_event res) = 4294967294 ∧
  p_e_mark (Ex.the_block
              (print_event Ex.decode Ex.fill Ex.args 0 (Ex.the_event res) "READ/RECV"))
  = "----- END DATA (TRUNCATED, 4294959102 bytes lost) -----" ∧
  calls (probe_SSL_read_exit Ex.args Ex.curl (Ex.regs 4294967295) 7 7 7 Ex.armed) = [].
Proof. vm_compute. split_and!; reflexivity. Qed.

(** * Further properties of the handlers *)

(** ** Process filter *)

Lemma FILTER_other_pid a n pid :
  args_pid a = Some n → 0 < n → pid ≠ n → FILTER a pid = true.
Proof.
  intros Ha Hn Hp. unfold FILTER, pid_ne_literal. rewrite Ha.
  destruct (Z.eqb_spec n 0); [lia|].
  destruct (Z.leb_spec 0 n); [|lia].
  by destruct (Z.eqb_spec pid n).
Qed.

Lemma FILTER_same_pid a n :
  args_pid a = Some n → 0 ≤ n → FILTER a n = false.
Proof.
  intros Ha Hn. unfold FILTER, pid_ne_literal. rewrite Ha.
  destruct (Z.eqb_spec n 0); [done|].
  destruct (Z.leb_spec 0 n); [|lia].
  by rewrite Z.eqb_refl.
Qed.

(** X1. With [-p n] for a positive [n], a probe fired by any other process
    does nothing: it returns 0, leaves both maps as they were (the scratch
    record is not even stamped) and calls no helper. *)
Theorem filtered_process_leaves_no_trace a k ctx p s n :
  args_pid a = Some n →
  0 < n →
  u32 (current_pid_tgid k ≫ 32) ≠ n →
  fire a k ctx p s = return_ 0 s [].
Proof.
  intros Ha Hn Hp. pose proof (FILTER_other_pid a n _ Ha Hn Hp) as Hf.
  destruct p; cbn [fire];
    unfold probe_SSL_write, probe_SSL_read_enter, probe_SSL_read_exit;
    by rewrite Hf.
Qed.

Lemma filtered_process_leaves_no_trace_witness :
  args_pid Ex.args_pid181 = Some 181 ∧
  0 < 181 ∧
  u32 (current_pid_tgid Ex.other ≫ 32) ≠ 181 ∧
  fire Ex.args_pid181 Ex.other (Ex.regs 0) (SSL_write 1 1000 5) initial_maps
  = return_ 0 initial_maps [].
Proof.
  assert (u32 (current_pid_tgid Ex.other ≫ 32) ≠ 181) as Hp by (vm_compute; discriminate).
  split; [reflexivity|]. split; [lia|]. split; [exact Hp|].
  apply (filtered_process_leaves_no_trace Ex.args_pid181 Ex.other (Ex.regs 0)
           (SSL_write 1 1000 5) initial_maps 181); [reflexivity|lia|exact Hp].
Defined.

(** ** The record a firing emits *)

(** X2. A firing emits at most one record, and every field of it is
    determined: the writer's handler submits on [perf_SSL_write] and Read
    Exit on [perf_SSL_read] (Read Entry never submits); the record carries
    the kernel's timestamp, the upper half of [pid_tgid] as pid, the current
    command name and the call's reported length, which is never 4294967295;
    and it is what the scratch record holds afterwards. *)
Theorem emitted_record_fields a k ctx p s ch d :
  (ch, d) ∈ emitted (calls (fire a k ctx p s)) →
  emitted (calls (fire a k ctx p s)) = [(ch, d)] ∧
  match p with
  | SSL_write _ _ _ => ch = perf_SSL_write
  | SSL_read_enter _ _ _ => False
  | SSL_read_exit _ _ _ => ch = perf_SSL_read
  end ∧
  timestamp_ns d = ktime_get_ns k ∧
  pid d = u32 (current_pid_tgid k ≫ 32) ∧
  comm d = current_comm k ∧
  reported_length ctx p = Some (len d) ∧
  0 ≤ len d < 4294967295 ∧
  data_map (maps (fire a k ctx p s)) !! 0%nat = Some d.
Proof.
  intros Hin. destruct p as [ssl buf num|ssl buf num|ssl buf num]; cbn [fire reported_length] in *.
  - destruct (probe_SSL_write_calls_inv _ _ _ _ _ _ _ (emitted_nonempty _ _ Hin))
      as (Hf & [d0 Hd] & Hn).
    destruct (probe_SSL_write_submits a k ctx ssl buf num s d0 Hf Hd Hn)
      as (pre & v & Heq & Hpre).
    cbn zeta in Heq. rewrite Heq in Hin |- *. cbn [calls maps return_] in *.
    pose proof (u32_range num) as Hu.
    assert (emitted pre = []) as Hnil.
    { by destruct Hpre as [(_ & -> & _)|(_ & r & _ & ->)]. }
    unfold emitted in *. rewrite omap_app in Hin |- *. rewrite Hnil in Hin |- *.
    cbn in Hin |- *. apply list_elem_of_singleton in Hin as [= -> ->].
    cbn [timestamp_ns pid comm len].
    split_and!; [done..|lia|lia|].
    unfold set_data; cbn [data_map]. apply list_lookup_insert_eq.
    by apply lookup_lt_Some in Hd.
  - rewrite probe_SSL_read_enter_calls in Hin. by apply elem_of_nil in Hin.
  - destruct (probe_SSL_read_exit_calls_inv _ _ _ _ _ _ _ (emitted_nonempty _ _ Hin))
      as (Hf & [bufp Hb] & [d0 Hd] & Hn).
    destruct (probe_SSL_read_exit_submits a k ctx ssl buf num s bufp d0 Hf Hb Hd Hn)
      as (r & v & Heq & _).
    cbn zeta in Heq. rewrite Heq in Hin |- *. cbn [calls maps return_] in *.
    pose proof (u32_range (PT_REGS_RC ctx)) as Hu.
    cbn in Hin |- *. apply list_elem_of_singleton in Hin as [= -> ->].
    cbn [timestamp_ns pid comm len].
    split_and!; [done..|lia|lia|].
    apply list_lookup_insert_eq. by apply lookup_lt_Some in Hd.
Qed.

Lemma emitted_record_fields_witness :
  let r := fire Ex.args Ex.curl (Ex.regs 0) (SSL_write 1 1000 5) initial_maps in
  (perf_SSL_write, Ex.short_write) ∈ emitted (calls r) ∧
  emitted (calls r) = [(perf_SSL_write, Ex.short_write)] ∧
  perf_SSL_write = perf_SSL_write ∧
  timestamp_ns Ex.short_write = ktime_get_ns Ex.curl ∧
  pid Ex.short_write = u32 (current_pid_tgid Ex.curl ≫ 32) ∧
  comm Ex.short_write = current_comm Ex.curl ∧
  reported_length (Ex.regs 0) (SSL_write 1 1000 5) = Some (len Ex.short_write) ∧
  0 ≤ len Ex.short_write < 4294967295 ∧
  data_map (maps r) !! 0%nat = Some Ex.short_write.
Proof.
  cbn zeta.
  assert ((perf_SSL_write, Ex.short_write)
          ∈ emitted (calls (fire Ex.args Ex.curl (Ex.regs 0) (SSL_write 1 1000 5) initial_maps)))
    as Hin by exact (list_elem_of_here _ _).
  split; [exact Hin|].
  exact (emitted_record_fields Ex.args Ex.curl (Ex.regs 0) (SSL_write 1 1000 5)
           initial_maps perf_SSL_write Ex.short_write Hin).
Defined.

(** ** What every run keeps *)

Lemma emitted_app tr1 tr2 : emitted (tr1 ++ tr2) = emitted tr1 ++ emitted tr2.
Proof. unfold emitted. apply omap_app. Qed.

Lemma slots_ok_set_bufs m s : slots_ok s → slots_ok (set_bufs m s).
Proof. done. Qed.

(** A firing keeps the shape of [data_map]. *)
Lemma fire_slots_ok a k ctx p s :
  slots_ok s →
  slots_ok (maps (fire a k ctx p s)) ∧
  length (data_map (maps (fire a k ctx p s))) = length (data_map s).
Proof.
  intros Hs. destruct p as [ssl buf num|ssl buf num|ssl buf num]; cbn [fire].
  - destruct (FILTER a (u32 (current_pid_tgid k ≫ 32))) eqn:Hf;
      [unfold probe_SSL_write; by rewrite Hf|].
    destruct (data_map s !! 0%nat) as [d0|] eqn:Hd;
      [|unfold probe_SSL_write; by rewrite Hf, Hd].
    pose proof (slots_ok_lookup _ _ Hs Hd) as Hlen.
    destruct (Z.eqb_spec (u32 num) 4294967295) as [Hn|Hn].
    + unfold probe_SSL_write. rewrite Hf, Hd.
      apply Z.eqb_eq in Hn. rewrite Hn. cbn [maps return_]. split.
      * by apply slots_ok_set_data.
      * unfold set_data; cbn [data_map]. apply length_insert.
    + destruct (probe_SSL_write_submits a k ctx ssl buf num s d0 Hf Hd Hn)
        as (pre & v & Heq & Hpre).
      cbn zeta in Heq. rewrite Heq. cbn [maps return_].
      pose proof (u32_range num) as Hu.
      pose proof (copy_size_bounds (u32 num) ltac:(lia)) as Hc.
      split; [|unfold set_data; cbn [data_map]; apply length_insert].
      apply slots_ok_set_data; [|done]. cbn [v0]. rewrite length_insert.
      destruct Hpre as [(_ & _ & ->)|(_ & r & Hr & _)]; [done|].
      erewrite probe_read_length; [done| |exact Hr]. lia.
  - unfold probe_SSL_read_enter. by destruct (FILTER _ _).
  - destruct (FILTER a (u32 (current_pid_tgid k ≫ 32))) eqn:Hf;
      [unfold probe_SSL_read_exit; by rewrite Hf|].
    destruct (bufs s !! u32 (current_pid_tgid k)) as [bufp|] eqn:Hb;
      [|unfold probe_SSL_read_exit; by rewrite Hf, Hb].
    destruct (data_map s !! 0%nat) as [d0|] eqn:Hd;
      [|unfold probe_SSL_read_exit; by rewrite Hf, Hb, Hd].
    pose proof (slots_ok_lookup _ _ Hs Hd) as Hlen.
    destruct (Z.eqb_spec (u32 (PT_REGS_RC ctx)) 4294967295) as [Hn|Hn].
    + unfold probe_SSL_read_exit. rewrite Hf, Hb, Hd. cbn [set_len len].
      apply Z.eqb_eq in Hn. rewrite Hn. cbn [maps return_]. split.
      * by apply slots_ok_set_data.
      * unfold set_data; cbn [data_map]. apply length_insert.
    + destruct (probe_SSL_read_exit_submits a k ctx ssl buf num s bufp d0 Hf Hb Hd Hn)
        as (r & v & Heq & Hr).
      cbn zeta in Heq. rewrite Heq. cbn [maps return_].
      pose proof (u32_range (PT_REGS_RC ctx)) as Hu.
      pose proof (copy_size_bounds (u32 (PT_REGS_RC ctx)) ltac:(lia)) as Hc.
      split; [|unfold set_bufs, set_data; cbn [data_map]; apply length_insert].
      apply slots_ok_set_bufs, slots_ok_set_data; [|done]. cbn [v0].
      rewrite length_insert.
      erewrite probe_read_length; [done| |exact Hr]. lia.
Qed.

(** A record emitted from well-formed maps is well formed. *)
Lemma fire_emitted_wf a k ctx p s ch d :
  slots_ok s →
  (ch, d) ∈ emitted (calls (fire a k ctx p s)) →
  length (v0 d) = Z.to_nat MAX_BUF_SIZE ∧
  v0 d !! Z.to_nat (Z.min (len d) (MAX_BUF_SIZE - 1)) = Some 0.
Proof.
  intros Hs Hin. rewrite <- copy_size_min.
  destruct (fire_calls_shape a k ctx p s Hs (emitted_nonempty _ _ Hin))
    as (ch' & d' & d0 & v & _ & _ & Hv & Hv0 & Hz & Hshape).
  cbn zeta in *.
  assert (d' = d) as ->.
  { destruct Hshape as [[Heq _]|(src & r & Heq & _)]; rewrite Heq in Hin;
      cbn in Hin; by apply list_elem_of_singleton in Hin as [= -> ->]. }
  split; [|done]. by rewrite Hv0, length_insert.
Qed.

Lemma fire_all_keeps a ps s :
  slots_ok s →
  slots_ok (fire_all a ps s).1 ∧
  length (data_map (fire_all a ps s).1) = length (data_map s) ∧
  ∀ ch d, (ch, d) ∈ emitted (fire_all a ps s).2 →
          length (v0 d) = Z.to_nat MAX_BUF_SIZE ∧
          v0 d !! Z.to_nat (Z.min (len d) (MAX_BUF_SIZE - 1)) = Some 0.
Proof.
  revert s. induction ps as [|[[k ctx] p] ps IH]; intros s Hs.
  - cbn. split_and!; [done..|]. intros ch d Hin. by apply elem_of_nil in Hin.
  - cbn [fire_all].
    destruct (fire_slots_ok a k ctx p s Hs) as [Hs1 Hl1].
    destruct (IH _ Hs1) as (Hs2 & Hl2 & Hev).
    destruct (fire_all a ps (maps (fire a k ctx p s))) as [s' tr]. cbn [fst snd] in *.
    split_and!; [done|congruence|].
    intros ch d Hin. rewrite emitted_app in Hin.
    apply elem_of_app in Hin as [Hin|Hin]; [|by apply (Hev ch)].
    by apply (fire_emitted_wf a k ctx p s ch d).
Qed.

(** X3. Whatever probes fire, in whatever order, from the maps as created:
    [data_map] keeps its single scratch record with a payload block of
    [MAX_BUF_SIZE] bytes, and every record submitted along the way has a
    full-size payload block with a zero at offset
    [min(length, MAX_BUF_SIZE - 1)]. *)
Theorem every_run_keeps_records_terminated a ps :
  let s := (fire_all a ps initial_maps).1 in
  length (data_map s) = 1%nat ∧
  slots_ok s ∧
  ∀ ch d, (ch, d) ∈ emitted (fire_all a ps initial_maps).2 →
          length (v0 d) = Z.to_nat MAX_BUF_SIZE ∧
          v0 d !! Z.to_nat (Z.min (len d) (MAX_BUF_SIZE - 1)) = Some 0.
Proof.
  cbn zeta.
  destruct (fire_all_keeps a ps initial_maps slots_ok_initial) as (Hs & Hl & Hev).
  split_and!; [by rewrite Hl|done|exact Hev].
Qed.

(** ** The table, thread by thread *)

Lemma bufs_update_other a tid buf m t :
  t ≠ tid → bufs_update a tid buf m !! t = m !! t.
Proof.
  intros Ht. unfold bufs_update.
  destruct (m !! tid); [by rewrite lookup_insert_ne|].
  destruct (decide _); [by rewrite lookup_insert_ne|done].
Qed.

(** X4. A firing touches the table at the key of the current thread only:
    the pending entry of every other thread is as before. The write handler
    leaves the whole table as it was. *)
Theorem firing_keeps_other_threads_entries a k ctx p s t :
  t ≠ u32 (current_pid_tgid k) →
  bufs (maps (fire a k ctx p s)) !! t = bufs s !! t ∧
  match p with
  | SSL_write _ _ _ => bufs (maps (fire a k ctx p s)) = bufs s
  | _ => True
  end.
Proof.
  intros Ht. destruct p as [ssl buf num|ssl buf num|ssl buf num]; cbn [fire].
  - assert (bufs (maps (probe_SSL_write a k ctx ssl buf num s)) = bufs s) as Hw.
    { unfold probe_SSL_write.
      destruct (FILTER _ _); [done|]. destruct (data_map s !! 0%nat); [|done].
      destruct (_ =? _); [done|]. destruct (negb _); [|done].
      cbn. by destruct (bpf_probe_read_user _ _ _ _). }
    by rewrite Hw.
  - split; [|done]. unfold probe_SSL_read_enter.
    destruct (FILTER _ _); [done|]. cbn [maps return_ set_bufs bufs].
    by apply bufs_update_other.
  - split; [|done]. unfold probe_SSL_read_exit.
    destruct (FILTER _ _); [done|]. destruct (bufs s !! u32 _); [|done].
    destruct (data_map s !! 0%nat); [|done].
    destruct (_ =? _); [done|]. cbn.
    destruct (bpf_probe_read_user _ _ _ _). cbn. by apply lookup_delete_ne.
Qed.

Lemma firing_keeps_other_threads_entries_witness :
  182 ≠ u32 (current_pid_tgid Ex.other) ∧
  bufs (maps (fire Ex.args Ex.other (Ex.regs 10) (SSL_read_exit 0 0 0) Ex.armed)) !! 182
  = bufs Ex.armed !! 182 ∧
  True.
Proof.
  assert (182 ≠ u32 (current_pid_tgid Ex.other)) as Ht by (vm_compute; discriminate).
  split; [exact Ht|].
  exact (firing_keeps_other_threads_entries Ex.args Ex.other (Ex.regs 10)
           (SSL_read_exit 0 0 0) Ex.armed 182 Ht).
Defined.

(** ** A write that succeeds *)

(** X5. [probe_SSL_write] with a non-null buffer whose first
    [n = min(num, MAX_BUF_SIZE - 1)] bytes are readable submits a record
    whose payload starts with exactly those bytes and has a zero at offset
    [n]; every payload byte after that zero is whatever the scratch record
    held from the capture before. *)
Theorem write_copies_user_bytes a k ctx ssl buf num s d0 bytes :
  FILTER a (u32 (current_pid_tgid k ≫ 32)) = false →
  data_map s !! 0%nat = Some d0 →
  length (v0 d0) = Z.to_nat MAX_BUF_SIZE →
  u32 num ≠ 4294967295 →
  buf ≠ 0 →
  mapM (user_mem k) (seqZ buf (Z.min (u32 num) (MAX_BUF_SIZE - 1))) = Some bytes →
  let n := Z.min (u32 num) (MAX_BUF_SIZE - 1) in
  ∃ d,
    calls (probe_SSL_write a k ctx ssl buf num s)
      = [probe_read_user n buf 0; perf_submit perf_SSL_write d] ∧
    len d = u32 num ∧
    take (Z.to_nat n) (v0 d) = bytes ∧
    v0 d !! Z.to_nat n = Some 0 ∧
    ∀ i, (Z.to_nat n < i)%nat → v0 d !! i = v0 d0 !! i.
Proof.
  intros Hf Hd Hlen Hn Hb Hbytes. cbn zeta.
  rewrite <- copy_size_min in *.
  destruct (probe_SSL_write_submits a k ctx ssl buf num s d0 Hf Hd Hn)
    as (pre & v & Heq & [(? & _)|(_ & r & Hr & ->)]); [done|].
  cbn zeta in Heq. rewrite Heq. cbn [calls return_ app].
  destruct (probe_read_payload _ _ _ _ _ _ _ Hr Hbytes) as [-> Ht].
  eexists. split; [reflexivity|]. cbn [len v0].
  pose proof (u32_range num) as Hu.
  pose proof (copy_size_bounds (u32 num) ltac:(lia)) as Hc.
  rewrite (probe_read_ok _ _ _ _ _ Hbytes) in Hr. injection Hr as <-.
  pose proof (length_mapM _ _ _ Hbytes) as Hlb. rewrite length_seqZ in Hlb.
  split_and!; [done|done| |].
  - apply list_lookup_insert_eq. rewrite length_app, length_drop. lia.
  - intros i Hi. rewrite list_lookup_insert_ne by lia.
    rewrite lookup_app_r by lia. rewrite lookup_drop. f_equal. lia.
Qed.

Lemma write_copies_user_bytes_witness :
  FILTER Ex.args (u32 (current_pid_tgid Ex.curl ≫ 32)) = false ∧
  data_map Ex.used !! 0%nat = Some Ex.used_slot ∧
  length (v0 Ex.used_slot) = Z.to_nat MAX_BUF_SIZE ∧
  u32 3 ≠ 4294967295 ∧
  2000 ≠ 0 ∧
  mapM (user_mem Ex.curl) (seqZ 2000 (Z.min (u32 3) (MAX_BUF_SIZE - 1)))
  = Some [244; 245; 246] ∧
  let n := Z.min (u32 3) (MAX_BUF_SIZE - 1) in
  ∃ d,
    calls (probe_SSL_write Ex.args Ex.curl (Ex.regs 0) 1 2000 3 Ex.used)
      = [probe_read_user n 2000 0; perf_submit perf_SSL_write d] ∧
    len d = u32 3 ∧
    take (Z.to_nat n) (v0 d) = [244; 245; 246] ∧
    v0 d !! Z.to_nat n = Some 0 ∧
    ∀ i, (Z.to_nat n < i)%nat → v0 d !! i = v0 Ex.used_slot !! i.
Proof.
  assert (u32 3 ≠ 4294967295) as Hn by (vm_compute; discriminate).
  assert (2000 ≠ 0) as Hb by lia.
  do 3 (split; [reflexivity|]). split; [exact Hn|]. split; [exact Hb|].
  split; [reflexivity|].
  apply (write_copies_user_bytes Ex.args Ex.curl (Ex.regs 0) 1 2000 3 Ex.used
           Ex.used_slot [244; 245; 246]);
    [reflexivity|reflexivity|reflexivity|exact Hn|exact Hb|reflexivity].
Defined.

(** ** Entry then exit *)

(** X6. A Read Entry followed by the same thread's Read Exit with a return
    value other than the sentinel: the payload is read from the pointer the
    entry was given, one record is submitted on [perf_SSL_read], and the
    thread has no entry left; the table is the one before the entry with
    this thread's key removed. The entry needs a free slot in the table
    unless the thread already had one. *)
Theorem read_enter_then_exit a k0 k ctx0 ctx ssl0 buf0 num0 ssl buf num s d0 :
  current_pid_tgid k0 = current_pid_tgid k →
  FILTER a (u32 (current_pid_tgid k ≫ 32)) = false →
  data_map s !! 0%nat = Some d0 →
  is_Some (bufs s !! u32 (current_pid_tgid k))
    ∨ (size (bufs s) < bufs_max_entries a)%nat →
  u32 (PT_REGS_RC ctx) ≠ 4294967295 →
  let tid := u32 (current_pid_tgid k) in
  let s1 := maps (probe_SSL_read_enter a k0 ctx0 ssl0 buf0 num0 s) in
  let res := probe_SSL_read_exit a k ctx ssl buf num s1 in
  ∃ d r,
    calls res = [probe_read_user (Z.min (u32 (PT_REGS_RC ctx)) (MAX_BUF_SIZE - 1)) buf0 r;
                 perf_submit perf_SSL_read d] ∧
    len d = u32 (PT_REGS_RC ctx) ∧
    bufs (maps res) !! tid = None ∧
    bufs (maps res) = delete tid (bufs s).
Proof.
  intros Hk Hf Hd Hroom Hn. cbn zeta.
  assert (maps (probe_SSL_read_enter a k0 ctx0 ssl0 buf0 num0 s)
          = set_bufs (<[u32 (current_pid_tgid k) := buf0]> (bufs s)) s) as ->.
  { unfold probe_SSL_read_enter. rewrite Hk, Hf. cbn [maps return_].
    f_equal. unfold bufs_update.
    destruct Hroom as [[old ->]|Hroom]; [done|].
    destruct (bufs s !! _); [done|]. by rewrite decide_True. }
  destruct (probe_SSL_read_exit_submits a k ctx ssl buf num
              (set_bufs (<[u32 (current_pid_tgid k) := buf0]> (bufs s)) s) buf0 d0
              Hf (lookup_insert_eq _ _ _) Hd Hn)
    as (r & v & Heq & _).
  cbn zeta in Heq. rewrite Heq. cbn [calls maps return_ set_bufs set_data bufs].
  rewrite <- copy_size_min.
  eexists _, r. split; [reflexivity|]. cbn [len].
  split_and!; [done|apply lookup_delete_eq|apply delete_insert_eq].
Qed.

Lemma read_enter_then_exit_witness :
  current_pid_tgid Ex.curl = current_pid_tgid Ex.curl ∧
  FILTER Ex.args (u32 (current_pid_tgid Ex.curl ≫ 32)) = false ∧
  data_map Ex.used !! 0%nat = Some Ex.used_slot ∧
  (is_Some (bufs Ex.used !! u32 (current_pid_tgid Ex.curl))
     ∨ (size (bufs Ex.used) < bufs_max_entries Ex.args)%nat) ∧
  u32 (PT_REGS_RC (Ex.regs 10)) ≠ 4294967295 ∧
  let tid := u32 (current_pid_tgid Ex.curl) in
  let s1 := maps (probe_SSL_read_enter Ex.args Ex.curl (Ex.regs 0) 1 3000 100 Ex.used) in
  let res := probe_SSL_read_exit Ex.args Ex.curl (Ex.regs 10) 7 7 7 s1 in
  ∃ d r,
    calls res = [probe_read_user (Z.min (u32 (PT_REGS_RC (Ex.regs 10))) (MAX_BUF_SIZE - 1))
                   3000 r;
                 perf_submit perf_SSL_read d] ∧
    len d = u32 (PT_REGS_RC (Ex.regs 10)) ∧
    bufs (maps res) !! tid = None ∧
    bufs (maps res) = delete tid (bufs Ex.used).
Proof.
  assert (u32 (PT_REGS_RC (Ex.regs 10)) ≠ 4294967295) as Hn by (vm_compute; discriminate).
  assert (is_Some (bufs Ex.used !! u32 (current_pid_tgid Ex.curl))
          ∨ (size (bufs Ex.used) < bufs_max_entries Ex.args)%nat) as Hroom.
  { right. vm_compute. lia. }
  do 3 (split; [reflexivity|]). split; [exact Hroom|]. split; [exact Hn|].
  apply (read_enter_then_exit Ex.args Ex.curl Ex.curl (Ex.regs 0) (Ex.regs 10)
           1 3000 100 7 7 7 Ex.used Ex.used_slot);
    [reflexivity|reflexivity|reflexivity|exact Hroom|exact Hn].
Defined.

(** ** A read that returns 0 *)

(** X7. A read that returns 0 (no data) is not treated like the sentinel:
    Read Exit still submits a record, of length 0. The payload block gets
    its zero at offset 0 and keeps every other byte of the scratch record;
    what the consumer takes as the payload is empty. *)
Theorem read_returning_zero_emits_empty_record a k ctx ssl buf num s bufp d0 :
  FILTER a (u32 (current_pid_tgid k ≫ 32)) = false →
  bufs s !! u32 (current_pid_tgid k) = Some bufp →
  data_map s !! 0%nat = Some d0 →
  length (v0 d0) = Z.to_nat MAX_BUF_SIZE →
  u32 (PT_REGS_RC ctx) = 0 →
  let res := probe_SSL_read_exit a k ctx ssl buf num s in
  ∃ d r,
    calls res = [probe_read_user 0 bufp r; perf_submit perf_SSL_read d] ∧
    len d = 0 ∧
    v0 d = <[0%nat := 0]> (v0 d0) ∧
    c_char_value (v0 d) = [].
Proof.
  intros Hf Hb Hd Hlen Hrc. cbn zeta.
  assert (u32 (PT_REGS_RC ctx) ≠ 4294967295) as Hn by lia.
  destruct (probe_SSL_read_exit_submits a k ctx ssl buf num s bufp d0 Hf Hb Hd Hn)
    as (r & v & Heq & Hr).
  cbn zeta in Heq. rewrite Hrc in Heq, Hr.
  assert (copy_size 0 = 0) as Hc by reflexivity. rewrite Hc in Heq, Hr.
  assert (v = v0 d0) as ->.
  { unfold bpf_probe_read_user in Hr. cbn in Hr. by injection Hr as <- <-. }
  rewrite Heq. cbn [calls return_].
  eexists _, r. split; [reflexivity|]. cbn [len v0].
  split_and!; [done|done|].
  destruct (v0 d0) as [|c l]; [|done].
  rewrite MAX_BUF_SIZE_eq in Hlen. cbn in Hlen. lia.
Qed.

Lemma read_returning_zero_emits_empty_record_witness :
  FILTER Ex.args (u32 (current_pid_tgid Ex.curl ≫ 32)) = false ∧
  bufs Ex.armed !! u32 (current_pid_tgid Ex.curl) = Some 1000 ∧
  data_map Ex.armed !! 0%nat = Some zero_data ∧
  length (v0 zero_data) = Z.to_nat MAX_BUF_SIZE ∧
  u32 (PT_REGS_RC (Ex.regs 0)) = 0 ∧
  let res := probe_SSL_read_exit Ex.args Ex.curl (Ex.regs 0) 7 7 7 Ex.armed in
  ∃ d r,
    calls res = [probe_read_user 0 1000 r; perf_submit perf_SSL_read d] ∧
    len d = 0 ∧
    v0 d = <[0%nat := 0]> (v0 zero_data) ∧
    c_char_value (v0 d) = [].
Proof.
  do 5 (split; [reflexivity|]).
  apply (read_returning_zero_emits_empty_record Ex.args Ex.curl (Ex.regs 0) 7 7 7
           Ex.armed 1000 zero_data); reflexivity.
Defined.

(** * Further properties of the consumer *)

(** ** What is rendered of a payload *)

Lemma c_char_value_take l : c_char_value l = take (length (c_char_value l)) l.
Proof.
  induction l as [|c l IH]; [done|]. cbn [c_char_value].
  destruct (c =? 0); [done|]. cbn. by f_equal.
Qed.

Lemma c_char_value_no_nul l : 0 ∉ c_char_value l.
Proof.
  induction l as [|c l IH]; [apply not_elem_of_nil|]. cbn [c_char_value].
  destruct (Z.eqb_spec c 0); [apply not_elem_of_nil|].
  apply not_elem_of_cons. split; [congruence|done].
Qed.

Lemma c_char_value_stops l i : l !! i = Some 0 → (length (c_char_value l) ≤ i)%nat.
Proof.
  revert i. induction l as [|c l IH]; intros i Hi; [done|].
  cbn [c_char_value]. destruct (Z.eqb_spec c 0); [cbn; lia|].
  destruct i as [|i]; [cbn in Hi; congruence|].
  cbn in Hi |- *. apply IH in Hi. lia.
Qed.

Lemma c_char_value_nul_free l l' : 0 ∉ l → c_char_value (l ++ 0 :: l') = l.
Proof.
  induction l as [|c l IH]; intros Hl; [done|].
  apply not_elem_of_cons in Hl as [Hc Hl]. cbn.
  destruct (Z.eqb_spec c 0); [congruence|]. by rewrite IH.
Qed.

Lemma c_char_value_app_nul l l' : c_char_value (l ++ 0 :: l') = c_char_value l.
Proof.
  induction l as [|c l IH]; [done|]. cbn.
  destruct (c =? 0); [done|]. by rewrite IH.
Qed.

Lemma print_event_data decode fill args start event rw start' b :
  print_event decode fill args start event rw = (start', Some b) →
  p_data b =
    if args_hexdump args then fill (decode (hexlify (c_char_value (v0 event)))) 32
    else decode (c_char_value (v0 event)).
Proof.
  unfold print_event.
  destruct (comm_filter args) as [c|]; [destruct (bool_decide _); cbn [negb]|];
    [|done|]; by intros [= _ <-].
Qed.

(** X8. Of an emitted record the consumer renders a NUL-free prefix of the
    payload block that is never longer than [min(length, MAX_BUF_SIZE - 1)]:
    bytes an earlier capture left behind the terminator are not shown, in
    text mode and in hexdump mode alike. *)
Theorem rendered_payload_stops_at_terminator a k ctx p s ch d
    decode fill args start rw start' b :
  slots_ok s →
  (ch, d) ∈ emitted (calls (fire a k ctx p s)) →
  print_event decode fill args start d rw = (start', Some b) →
  ∃ m, (m ≤ Z.to_nat (Z.min (len d) (MAX_BUF_SIZE - 1)))%nat ∧
       (0 ∉ take m (v0 d)) ∧
       p_data b =
         (if args_hexdump args then fill (decode (hexlify (take m (v0 d)))) 32
          else decode (take m (v0 d))).
Proof.
  intros Hs Hin Hp.
  destruct (fire_emitted_wf a k ctx p s ch d Hs Hin) as [_ Hz].
  exists (length (c_char_value (v0 d))).
  rewrite <- c_char_value_take.
  split_and!; [by apply c_char_value_stops|apply c_char_value_no_nul|].
  by eapply print_event_data.
Qed.

Lemma rendered_payload_stops_at_terminator_witness :
  let r := fire Ex.args Ex.curl (Ex.regs 0) (SSL_write 1 1000 5) initial_maps in
  let out := print_event Ex.decode Ex.fill Ex.args 0 Ex.short_write "WRITE/SEND" in
  slots_ok initial_maps ∧
  (perf_SSL_write, Ex.short_write) ∈ emitted (calls r) ∧
  out = (5000, Some (Ex.the_block out)) ∧
  ∃ m, (m ≤ Z.to_nat (Z.min (len Ex.short_write) (MAX_BUF_SIZE - 1)))%nat ∧
       (0 ∉ take m (v0 Ex.short_write)) ∧
       p_data (Ex.the_block out) =
         (if args_hexdump Ex.args
          then Ex.fill (Ex.decode (hexlify (take m (v0 Ex.short_write)))) 32
          else Ex.decode (take m (v0 Ex.short_write))).
Proof.
  cbn zeta.
  assert ((perf_SSL_write, Ex.short_write)
          ∈ emitted (calls (fire Ex.args Ex.curl (Ex.regs 0) (SSL_write 1 1000 5) initial_maps)))
    as Hin by exact (list_elem_of_here _ _).
  assert (print_event Ex.decode Ex.fill Ex.args 0 Ex.short_write "WRITE/SEND"
          = (5000, Some (Ex.the_block
               (print_event Ex.decode Ex.fill Ex.args 0 Ex.short_write "WRITE/SEND"))))
    as Hp by (vm_compute; reflexivity).
  split; [exact slots_ok_initial|]. split; [exact Hin|]. split; [exact Hp|].
  exact (rendered_payload_stops_at_terminator Ex.args Ex.curl (Ex.regs 0)
           (SSL_write 1 1000 5) initial_maps perf_SSL_write Ex.short_write
           Ex.decode Ex.fill Ex.args 0 "WRITE/SEND" 5000 _ slots_ok_initial Hin Hp).
Defined.

(** X9. A record whose payload block holds [bytes] followed by a zero is
    rendered, in text mode, as the decoding of [bytes] up to its first zero
    byte: all of [bytes] when none of them is zero, and only the part before
    the first zero when one is. *)
Theorem text_payload_cut_at_first_nul decode fill args start event rw start' b bytes :
  args_hexdump args = false →
  print_event decode fill args start event rw = (start', Some b) →
  take (length bytes) (v0 event) = bytes →
  v0 event !! length bytes = Some 0 →
  p_data b = decode (c_char_value bytes) ∧
  (0 ∉ bytes → p_data b = decode bytes) ∧
  (∀ pre post, bytes = pre ++ 0 :: post → 0 ∉ pre → p_data b = decode pre).
Proof.
  intros Hh Hp Ht Hz.
  rewrite (print_event_data _ _ _ _ _ _ _ _ Hp), Hh.
  assert (v0 event = bytes ++ 0 :: drop (S (length bytes)) (v0 event)) as Hv.
  { rewrite <- (take_drop (length bytes) (v0 event)) at 1.
    rewrite Ht. f_equal. by apply drop_S. }
  rewrite Hv, c_char_value_app_nul.
  split_and!; [done| |].
  - intros Hb. f_equal.
    pose proof (c_char_value_nul_free bytes [] Hb) as Hc.
    by rewrite c_char_value_app_nul in Hc.
  - intros pre post -> Hpre. by rewrite c_char_value_nul_free.
Qed.

Lemma text_payload_cut_at_first_nul_witness :
  let out := print_event Ex.decode Ex.fill Ex.args 0 Ex.short_write "WRITE/SEND" in
  let bytes := [248; 249; 250; 251; 1] in
  args_hexdump Ex.args = false ∧
  out = (5000, Some (Ex.the_block out)) ∧
  take (length bytes) (v0 Ex.short_write) = bytes ∧
  v0 Ex.short_write !! length bytes = Some 0 ∧
  p_data (Ex.the_block out) = Ex.decode (c_char_value bytes) ∧
  (0 ∉ bytes → p_data (Ex.the_block out) = Ex.decode bytes) ∧
  (∀ pre post, bytes = pre ++ 0 :: post → 0 ∉ pre →
               p_data (Ex.the_block out) = Ex.decode pre).
Proof.
  cbn zeta.
  assert (print_event Ex.decode Ex.fill Ex.args 0 Ex.short_write "WRITE/SEND"
          = (5000, Some (Ex.the_block
               (print_event Ex.decode Ex.fill Ex.args 0 Ex.short_write "WRITE/SEND"))))
    as Hp by (vm_compute; reflexivity).
  split; [reflexivity|]. split; [exact Hp|].
  split; [reflexivity|]. split; [reflexivity|].
  apply (text_payload_cut_at_first_nul Ex.decode Ex.fill Ex.args 0 Ex.short_write
           "WRITE/SEND" 5000 _ [248; 249; 250; 251; 1]);
    [reflexivity|exact Hp|reflexivity|reflexivity].
Defined.

(** ** Events that are printed *)

Lemma print_event_kept decode fill args start event rw :
  (∀ c, comm_filter args = Some c → c = decode (c_char_value (comm event))) →
  ∃ b,
    print_event decode fill args start event rw
    = (if start =? 0 then timestamp_ns event else start, Some b) ∧
    p_rw b = rw ∧
    p_time_ns b = timestamp_ns event - (if start =? 0 then timestamp_ns event else start) ∧
    p_comm b = decode (c_char_value (comm event)) ∧
    p_pid b = pid event ∧
    p_len b = len event ∧
    p_s_mark b = "----- DATA -----".
Proof.
  intros Hc. unfold print_event.
  destruct (comm_filter args) as [c|].
  - rewrite bool_decide_eq_true_2 by by apply Hc. cbn [negb].
    eexists. split; [reflexivity|]. by cbn.
  - eexists. split; [reflexivity|]. by cbn.
Qed.

Lemma comm_filter_absent args :
  args_comm args = None ∨ args_comm args = Some "" → comm_filter args = None.
Proof. unfold comm_filter. by intros [-> | ->]. Qed.

(** X10. An event is printed whenever no command filter is given, the
    filter is the empty string (which the script takes as no filter), or the
    filter equals the decoded command. The block carries the event's pid and
    length, its decoded command and the start marker; the baseline becomes
    the event's timestamp if it was still unset, and the printed time is the
    distance to the baseline: 0 for the event that sets it. *)
Theorem kept_event_is_printed decode fill args start event rw :
  (∀ c, args_comm args = Some c →
        c = "" ∨ c = decode (c_char_value (comm event))) →
  ∃ b,
    print_event decode fill args start event rw
    = (if start =? 0 then timestamp_ns event else start, Some b) ∧
    p_rw b = rw ∧
    p_time_ns b = (if start =? 0 then 0 else timestamp_ns event - start) ∧
    p_comm b = decode (c_char_value (comm event)) ∧
    p_pid b = pid event ∧
    p_len b = len event ∧
    p_s_mark b = "----- DATA -----".
Proof.
  intros Hc.
  destruct (print_event_kept decode fill args start event rw) as (b & Hp & Hb).
  { intros c. unfold comm_filter.
    destruct (args_comm args) as [c'|]; [|done].
    destruct (decide (c' = "")); [done|]. intros [= <-].
    by destruct (Hc c' eq_refl). }
  exists b. split; [exact Hp|].
  destruct Hb as (? & Ht & ?). split; [done|]. split; [|done].
  rewrite Ht. destruct (start =? 0); lia.
Qed.

Lemma kept_event_is_printed_witness :
  (∀ c, args_comm Ex.args_curl = Some c →
        c = "" ∨ c = Ex.decode (c_char_value (comm Ex.short_write))) ∧
  ∃ b,
    print_event Ex.decode Ex.fill Ex.args_curl 0 Ex.short_write "WRITE/SEND"
    = (if 0 =? 0 then timestamp_ns Ex.short_write else 0, Some b) ∧
    p_rw b = "WRITE/SEND" ∧
    p_time_ns b = (if 0 =? 0 then 0 else timestamp_ns Ex.short_write - 0) ∧
    p_comm b = Ex.decode (c_char_value (comm Ex.short_write)) ∧
    p_pid b = pid Ex.short_write ∧
    p_len b = len Ex.short_write ∧
    p_s_mark b = "----- DATA -----".
Proof.
  assert (∀ c, args_comm Ex.args_curl = Some c →
               c = "" ∨ c = Ex.decode (c_char_value (comm Ex.short_write))) as Hc.
  { intros c [= <-]. right. reflexivity. }
  split; [exact Hc|].
  exact (kept_event_is_printed Ex.decode Ex.fill Ex.args_curl 0 Ex.short_write
           "WRITE/SEND" Hc).
Defined.

Lemma poll_unfiltered decode fill args start evs :
  comm_filter args = None →
  start ≠ 0 →
  let out := poll decode fill args start evs in
  p_time_ns <$> out.2 = (λ x, timestamp_ns x.2 - start) <$> evs ∧
  p_rw <$> out.2 = (λ x, direction x.1) <$> evs ∧
  p_len <$> out.2 = (λ x, len x.2) <$> evs.
Proof.
  intros Hc Hs. cbn zeta. induction evs as [|[ch event] evs IH]; [done|].
  cbn [poll].
  destruct (print_event_kept decode fill args start event (direction ch))
    as (b & Hp & Hrw & Ht & _ & _ & Hl & _).
  { intros c. by rewrite Hc. }
  assert (callback decode fill args ch start event
          = print_event decode fill args start event (direction ch)) as ->
    by by destruct ch.
  rewrite Hp. apply Z.eqb_neq in Hs. rewrite Hs in Ht |- *.
  destruct (poll decode fill args start evs) as [start2 outs].
  cbn [snd option_list app fmap list_fmap] in *.
  destruct IH as (IH1 & IH2 & IH3).
  split_and!; cbn; f_equal; done.
Qed.

(** X11. Without a command filter the polling loop prints one block per
    event, in arrival order. The first event sets the baseline and is
    printed at time 0; every later block's time is its timestamp minus the
    first one's. Records from [perf_SSL_write] are labelled WRITE/SEND and
    records from [perf_SSL_read] READ/RECV, each with its own length. *)
Theorem poll_prints_every_event_in_order decode fill args ch e evs :
  args_comm args = None ∨ args_comm args = Some "" →
  timestamp_ns e ≠ 0 →
  let out := poll decode fill args 0 ((ch, e) :: evs) in
  out.1 = timestamp_ns e ∧
  p_time_ns <$> out.2 = (λ x, timestamp_ns x.2 - timestamp_ns e) <$> ((ch, e) :: evs) ∧
  p_rw <$> out.2 = (λ x, direction x.1) <$> ((ch, e) :: evs) ∧
  p_len <$> out.2 = (λ x, len x.2) <$> ((ch, e) :: evs).
Proof.
  intros Hc%comm_filter_absent Hts. cbn zeta. cbn [poll].
  destruct (print_event_kept decode fill args 0 e (direction ch))
    as (b & Hp & Hrw & Ht & _ & _ & Hl & _).
  { intros c. by rewrite Hc. }
  assert (callback decode fill args ch 0 e
          = print_event decode fill args 0 e (direction ch)) as ->
    by by destruct ch.
  rewrite Hp. cbn [Z.eqb] in *.
  pose proof (poll_start_set decode fill args (timestamp_ns e) evs Hts) as Hst.
  destruct (poll_unfiltered decode fill args (timestamp_ns e) evs Hc Hts)
    as (H1 & H2 & H3).
  destruct (poll decode fill args (timestamp_ns e) evs) as [start2 outs].
  cbn [fst snd option_list app] in *.
  split_and!; [done|cbn; f_equal; [lia|done]|cbn; by f_equal|cbn; by f_equal].
Qed.

Lemma poll_prints_every_event_in_order_witness :
  (args_comm Ex.args = None ∨ args_comm Ex.args = Some "") ∧
  timestamp_ns Ex.other_event ≠ 0 ∧
  let evs := [(perf_SSL_write, Ex.short_write)] in
  let out := poll Ex.decode Ex.fill Ex.args 0 ((perf_SSL_read, Ex.other_event) :: evs) in
  out.1 = timestamp_ns Ex.other_event ∧
  p_time_ns <$> out.2
  = (λ x, timestamp_ns x.2 - timestamp_ns Ex.other_event)
      <$> ((perf_SSL_read, Ex.other_event) :: evs) ∧
  p_rw <$> out.2 = (λ x, direction x.1) <$> ((perf_SSL_read, Ex.other_event) :: evs) ∧
  p_len <$> out.2 = (λ x, len x.2) <$> ((perf_SSL_read, Ex.other_event) :: evs).
Proof.
  assert (timestamp_ns Ex.other_event ≠ 0) as Hts by (vm_compute; discriminate).
  split; [by left|]. split; [exact Hts|].
  exact (poll_prints_every_event_in_order Ex.decode Ex.fill Ex.args perf_SSL_read
           Ex.other_event [(perf_SSL_write, Ex.short_write)] (or_introl eq_refl) Hts).
Defined.

(** * The probes the script attaches *)

(** X12. Every attachment carries the pid [args.pid or -1]. A return probe
    is always [probe_SSL_read_exit], and it comes with an entry probe
    [probe_SSL_read_enter] on the same library and symbol, as every entry
    probe [probe_SSL_read_enter] comes with its return probe. Nothing is
    attached to a library that is switched off. *)
Theorem attached_read_probes_are_paired l a x :
  x ∈ attach_all l a →
  at_pid x = pid_or_all (args_pid a) ∧
  (at_kind x = uretprobe ↔ at_fn_name x = "probe_SSL_read_exit") ∧
  (at_kind x = uretprobe →
     attach_uprobe (at_name x) (at_sym x) "probe_SSL_read_enter" (at_pid x)
     ∈ attach_all l a) ∧
  (at_fn_name x = "probe_SSL_read_enter" →
     attach_uretprobe (at_name x) (at_sym x) "probe_SSL_read_exit" (at_pid x)
     ∈ attach_all l a) ∧
  (at_name x = "ssl" → args_openssl l = true) ∧
  (at_name x = "gnutls" → args_gnutls l = true) ∧
  (at_name x = "nspr4" → args_nss l = true).
Proof.
  intros Hx. unfold attach_all in *.
  set (pid := pid_or_all (args_pid a)) in *. clearbody pid.
  destruct l as [[] [] []]; cbn [args_openssl args_gnutls args_nss app] in *;
    repeat match goal with
    | H : _ ∈ _ :: _ |- _ => apply elem_of_cons in H as [->|H]
    | H : _ ∈ [] |- _ => by apply elem_of_nil in H
    end;
    cbn [attach_uprobe attach_uretprobe at_kind at_name at_sym at_fn_name at_pid];
    (split; [reflexivity|]);
    (split; [split; (reflexivity || discriminate)|]);
    (split; [(discriminate || (intros _; unfold attach_uprobe; set_solver))|]);
    (split; [(discriminate || (intros _; unfold attach_uretprobe; set_solver))|]);
    split_and!; (reflexivity || discriminate).
Qed.

Lemma attached_read_probes_are_paired_witness :
  let l := {| args_openssl := true; args_gnutls := false; args_nss := true |} in
  let x := attach_uretprobe "nspr4" "PR_Recv" "probe_SSL_read_exit" 181 in
  x ∈ attach_all l Ex.args_pid181 ∧
  at_pid x = pid_or_all (args_pid Ex.args_pid181) ∧
  (at_kind x = uretprobe ↔ at_fn_name x = "probe_SSL_read_exit") ∧
  (at_kind x = uretprobe →
     attach_uprobe (at_name x) (at_sym x) "probe_SSL_read_enter" (at_pid x)
     ∈ attach_all l Ex.args_pid181) ∧
  (at_fn_name x = "probe_SSL_read_enter" →
     attach_uretprobe (at_name x) (at_sym x) "probe_SSL_read_exit" (at_pid x)
     ∈ attach_all l Ex.args_pid181) ∧
  (at_name x = "ssl" → args_openssl l = true) ∧
  (at_name x = "gnutls" → args_gnutls l = true) ∧
  (at_name x = "nspr4" → args_nss l = true).
Proof.
  cbn zeta.
  assert (attach_uretprobe "nspr4" "PR_Recv" "probe_SSL_read_exit" 181
          ∈ attach_all {| args_openssl := true; args_gnutls := false; args_nss := true |}
              Ex.args_pid181) as Hx.
  { vm_compute. do 8 apply list_elem_of_further. apply list_elem_of_here. }
  split; [exact Hx|].
  exact (attached_read_probes_are_paired _ _ _ Hx).
Defined.

(** * Runs of several firings *)

Lemma fire_emits_at_most_one a k ctx p s :
  (length (emitted (calls (fire a k ctx p s))) ≤ 1)%nat ∧
  match p with
  | SSL_read_enter _ _ _ => emitted (calls (fire a k ctx p s)) = []
  | _ => True
  end.
Proof.
  destruct (emitted (calls (fire a k ctx p s))) as [|[ch d] l] eqn:E.
  - split; [cbn; lia|]. by destruct p.
  - assert ((ch, d) ∈ emitted (calls (fire a k ctx p s))) as Hin
      by (rewrite E; apply list_elem_of_here).
    assert (calls (fire a k ctx p s) ≠ []) as Hne by by eapply emitted_nonempty.
    destruct p as [ssl buf num|ssl buf num|ssl buf num]; cbn [fire] in *.
    + destruct (probe_SSL_write_calls_inv _ _ _ _ _ _ _ Hne) as (Hf & [d0 Hd] & Hn).
      destruct (probe_SSL_write_submits a k ctx ssl buf num s d0 Hf Hd Hn)
        as (pre & v & Heq & Hpre).
      cbn zeta in Heq. rewrite Heq in E. cbn [calls return_] in E.
      rewrite emitted_app in E.
      assert (emitted pre = []) as Hnil
        by by destruct Hpre as [(_ & -> & _)|(_ & r & _ & ->)].
      rewrite Hnil in E. apply (f_equal length) in E. cbn in E |- *.
      split; [lia|done].
    + by rewrite probe_SSL_read_enter_calls in Hne.
    + destruct (probe_SSL_read_exit_calls_inv _ _ _ _ _ _ _ Hne)
        as (Hf & [bufp Hb] & [d0 Hd] & Hn).
      destruct (probe_SSL_read_exit_submits a k ctx ssl buf num s bufp d0 Hf Hb Hd Hn)
        as (r & v & Heq & _).
      cbn zeta in Heq. rewrite Heq in E. apply (f_equal length) in E.
      cbn in E |- *. split; [lia|done].
Qed.

(** X13. A run never submits more records than the number of write and
    Read Exit probes that fired in it: each firing submits at most one, and
    a Read Entry none. *)
Theorem run_submits_at_most_one_record_per_call a ps s :
  (length (emitted (fire_all a ps s).2)
   ≤ length (filter (λ x, may_submit x.2 = true) ps))%nat.
Proof.
  revert s. induction ps as [|[[k ctx] p] ps IH]; intros s; [done|].
  cbn [fire_all]. specialize (IH (maps (fire a k ctx p s))).
  destruct (fire_all a ps (maps (fire a k ctx p s))) as [s' tr]. cbn [snd] in *.
  rewrite emitted_app, length_app.
  destruct (fire_emits_at_most_one a k ctx p s) as [Hone Henter].
  destruct p as [ssl buf num|ssl buf num|ssl buf num].
  - rewrite filter_cons_True by done. cbn [length]. lia.
  - rewrite filter_cons_False by done.
    rewrite Henter. cbn [length]. lia.
  - rewrite filter_cons_True by done. cbn [length]. lia.
Qed.

Lemma fire_entry_origin a k ctx p s t b :
  bufs (maps (fire a k ctx p s)) !! t = Some b →
  bufs s !! t = Some b ∨
  ∃ ssl num, p = SSL_read_enter ssl b num ∧ t = u32 (current_pid_tgid k).
Proof.
  destruct p as [ssl buf num|ssl buf num|ssl buf num]; cbn [fire].
  - unfold probe_SSL_write.
    destruct (FILTER _ _); [by left|]. destruct (data_map s !! 0%nat); [|by left].
    destruct (_ =? _); [by left|]. destruct (negb _); [|by left].
    cbn. destruct (bpf_probe_read_user _ _ _ _). by left.
  - unfold probe_SSL_read_enter.
    destruct (FILTER _ _); [by left|]. cbn [maps return_ set_bufs bufs].
    destruct (decide (t = u32 (current_pid_tgid k))) as [->|Ht];
      [|rewrite bufs_update_other by done; by left].
    unfold bufs_update.
    destruct (bufs s !! u32 (current_pid_tgid k)) eqn:Hold.
    + rewrite lookup_insert_eq. intros [= <-]. right. by exists ssl, num.
    + destruct (decide _); [|intros Hb; rewrite ?Hold in Hb; done].
      rewrite lookup_insert_eq. intros [= <-]. right. by exists ssl, num.
  - unfold probe_SSL_read_exit.
    destruct (FILTER _ _); [by left|]. destruct (bufs s !! u32 _); [|by left].
    destruct (data_map s !! 0%nat); [|by left].
    destruct (_ =? _); [by left|]. cbn.
    destruct (bpf_probe_read_user _ _ _ _). cbn.
    intros [_ ?]%lookup_delete_Some. by left.
Qed.

Lemma fire_all_entry_origin a ps s t b :
  bufs (fire_all a ps s).1 !! t = Some b →
  bufs s !! t = Some b ∨
  ∃ k ctx ssl num,
    (k, ctx, SSL_read_enter ssl b num) ∈ ps ∧ t = u32 (current_pid_tgid k).
Proof.
  revert s. induction ps as [|[[k ctx] p] ps IH]; intros s; [by left|].
  cbn [fire_all]. specialize (IH (maps (fire a k ctx p s))).
  destruct (fire_all a ps (maps (fire a k ctx p s))) as [s' tr]. cbn [fst] in *.
  intros Hb. destruct (IH Hb) as [Hprev|(k' & ctx' & ssl & num & Hin & ->)].
  - destruct (fire_entry_origin _ _ _ _ _ _ _ Hprev) as [?|(ssl & num & -> & ->)];
      [by left|].
    right. exists k, ctx, ssl, num. split; [apply list_elem_of_here|done].
  - right. exists k', ctx', ssl, num. split; [by apply list_elem_of_further|done].
Qed.

(** X14. In the table reached by any run from the maps as created, every
    entry was put there by a Read Entry of the run: its key is the thread id
    of that firing and its value the buffer pointer that firing was given.
    No other handler adds or changes an entry. *)
Theorem pending_entries_come_from_read_entry a ps t b :
  bufs (fire_all a ps initial_maps).1 !! t = Some b →
  ∃ k ctx ssl num,
    (k, ctx, SSL_read_enter ssl b num) ∈ ps ∧ t = u32 (current_pid_tgid k).
Proof.
  intros Hb. destruct (fire_all_entry_origin a ps initial_maps t b Hb) as [Hi|?];
    [|done].
  cbn in Hi. by rewrite lookup_empty in Hi.
Qed.

Lemma pending_entries_come_from_read_entry_witness :
  let ps := [(Ex.curl, Ex.regs 0, SSL_write 1 1000 5);
             (Ex.curl, Ex.regs 0, SSL_read_enter 1 3000 100)] in
  bufs (fire_all Ex.args ps initial_maps).1 !! 182 = Some 3000 ∧
  ∃ k ctx ssl num,
    (k, ctx, SSL_read_enter ssl 3000 num) ∈ ps ∧ 182 = u32 (current_pid_tgid k).
Proof.
  cbn zeta.
  assert (bufs (fire_all Ex.args
                  [(Ex.curl, Ex.regs 0, SSL_write 1 1000 5);
                   (Ex.curl, Ex.regs 0, SSL_read_enter 1 3000 100)] initial_maps).1
            !! 182 = Some 3000) as Hb by reflexivity.
  split; [exact Hb|].
  exact (pending_entries_come_from_read_entry Ex.args _ 182 3000 Hb).
Defined.


(** * Negative return values of a read, end to end *)

(** C10, as amended. At Read Exit only a return value whose [u32] form is
    4294967295 stops the capture. For any other negative return value [rv],
    a Read Exit that finds its pending entry and scratch record emits an
    event of length [rv + 2^32] and reads [capacity - 1] bytes (which is
    [min(length, capacity - 1)]) from the saved buffer. When that whole
    range is readable the bytes are copied into the payload; when it is not,
    no byte is copied and those payload bytes are zero. The consumer renders
    the event with the truncation marker, reporting [length - capacity]
    bytes lost, unless its command filter drops the event. *)
Theorem negative_return_is_a_length a k ctx ssl buf num s bufp d0 rv :
  FILTER a (u32 (current_pid_tgid k ≫ 32)) = false →
  bufs s !! u32 (current_pid_tgid k) = Some bufp →
  data_map s !! 0%nat = Some d0 →
  length (v0 d0) = Z.to_nat MAX_BUF_SIZE →
  - 2 ^ 31 ≤ rv < -1 →
  u32 (PT_REGS_RC ctx) = u32 rv →
  let res := probe_SSL_read_exit a k ctx ssl buf num s in
  let n := MAX_BUF_SIZE - 1 in
  ∃ d r,
    calls res = [probe_read_user n bufp r; perf_submit perf_SSL_read d] ∧
    emitted (calls res) = [(perf_SSL_read, d)] ∧
    len d = rv + 2 ^ 32 ∧
    Z.min (len d) (MAX_BUF_SIZE - 1) = n ∧
    v0 d !! Z.to_nat n = Some 0 ∧
    (∀ bytes, mapM (user_mem k) (seqZ bufp n) = Some bytes →
              r = 0 ∧ bytes_copied (calls res) = n ∧
              take (Z.to_nat n) (v0 d) = bytes) ∧
    (mapM (user_mem k) (seqZ bufp n) = None →
       r = -14 ∧ bytes_copied (calls res) = 0 ∧
       take (Z.to_nat n) (v0 d) = replicate (Z.to_nat n) 0) ∧
    ∀ decode fill args start rw,
      ((∀ c, comm_filter args = Some c → c = decode (c_char_value (comm d))) →
       ∃ b, print_event decode fill args start d rw
            = (if start =? 0 then timestamp_ns d else start, Some b) ∧
            p_len b = len d ∧
            p_e_mark b = "----- END DATA (TRUNCATED, " +:+ pretty (len d - MAX_BUF_SIZE)
                           +:+ " bytes lost) -----") ∧
      (∀ c, comm_filter args = Some c → c ≠ decode (c_char_value (comm d)) →
            print_event decode fill args start d rw = (start, None)).
Proof.
  intros Hf Hb Hd Hlen Hrv Hrc. cbn zeta.
  assert (u32 rv = rv + 2 ^ 32) as Hu.
  { unfold u32. symmetry. apply (Z.mod_unique_pos _ _ (-1)); lia. }
  assert (u32 (PT_REGS_RC ctx) ≠ 4294967295) as Hn by lia.
  destruct (probe_SSL_read_exit_submits a k ctx ssl buf num s bufp d0 Hf Hb Hd Hn)
    as (r & v & Heq & Hr).
  cbn zeta in Heq.
  assert (copy_size (u32 (PT_REGS_RC ctx)) = MAX_BUF_SIZE - 1) as Hc.
  { rewrite copy_size_min, MAX_BUF_SIZE_eq. lia. }
  rewrite Hc in Heq, Hr.
  match type of Heq with
  | _ = return_ _ _ [_; perf_submit _ ?d] => exists d, r
  end.
  rewrite Heq. cbn [calls return_ len v0 comm].
  assert (length v = Z.to_nat MAX_BUF_SIZE) as Hv.
  { erewrite probe_read_length; [done| |exact Hr]. rewrite MAX_BUF_SIZE_eq in *. lia. }
  split; [done|]. split; [done|]. split; [lia|].
  split; [rewrite MAX_BUF_SIZE_eq; lia|].
  split; [apply list_lookup_insert_eq; rewrite MAX_BUF_SIZE_eq in *; lia|].
  split; [|split].
  - intros bytes Hbytes.
    destruct (probe_read_payload _ _ _ _ _ _ _ Hr Hbytes) as [-> Ht].
    split_and!; [done|cbn; lia|done].
  - intros Hfault.
    destruct (probe_read_fault_payload _ _ _ _ _ _ Hr Hfault) as [-> Ht].
    by split_and!.
  - intros decode fill args start rw. split.
    + intros Hkeep.
      match goal with
      | |- ∃ b, print_event _ _ _ _ ?d _ = _ ∧ _ =>
          destruct (print_event_kept decode fill args start d rw Hkeep)
            as (b & Hp & _ & _ & _ & _ & Hl & _)
      end.
      exists b. split; [exact Hp|]. split; [exact Hl|].
      apply print_event_e_mark in Hp as [_ ->]. cbn [len].
      destruct (Z.gtb_spec (u32 (PT_REGS_RC ctx) - MAX_BUF_SIZE) 0); [done|].
      rewrite MAX_BUF_SIZE_eq in *. lia.
    + intros c Hc' Hne. by eapply print_event_dropped.
Qed.

Lemma negative_return_is_a_length_witness :
  FILTER Ex.args (u32 (current_pid_tgid Ex.curl ≫ 32)) = false ∧
  bufs Ex.armed !! u32 (current_pid_tgid Ex.curl) = Some 1000 ∧
  data_map Ex.armed !! 0%nat = Some zero_data ∧
  length (v0 zero_data) = Z.to_nat MAX_BUF_SIZE ∧
  - 2 ^ 31 ≤ -2 < -1 ∧
  u32 (PT_REGS_RC (Ex.regs 4294967294)) = u32 (-2) ∧
  let res := probe_SSL_read_exit Ex.args Ex.curl (Ex.regs 4294967294) 7 7 7 Ex.armed in
  let n := MAX_BUF_SIZE - 1 in
  ∃ d r,
    calls res = [probe_read_user n 1000 r; perf_submit perf_SSL_read d] ∧
    emitted (calls res) = [(perf_SSL_read, d)] ∧
    len d = -2 + 2 ^ 32 ∧
    Z.min (len d) (MAX_BUF_SIZE - 1) = n ∧
    v0 d !! Z.to_nat n = Some 0 ∧
    (∀ bytes, mapM (user_mem Ex.curl) (seqZ 1000 n) = Some bytes →
              r = 0 ∧ bytes_copied (calls res) = n ∧
              take (Z.to_nat n) (v0 d) = bytes) ∧
    (mapM (user_mem Ex.curl) (seqZ 1000 n) = None →
       r = -14 ∧ bytes_copied (calls res) = 0 ∧
       take (Z.to_nat n) (v0 d) = replicate (Z.to_nat n) 0) ∧
    ∀ decode fill args start rw,
      ((∀ c, comm_filter args = Some c → c = decode (c_char_value (comm d))) →
       ∃ b, print_event decode fill args start d rw
            = (if start =? 0 then timestamp_ns d else start, Some b) ∧
            p_len b = len d ∧
            p_e_mark b = "----- END DATA (TRUNCATED, " +:+ pretty (len d - MAX_BUF_SIZE)
                           +:+ " bytes lost) -----") ∧
      (∀ c, comm_filter args = Some c → c ≠ decode (c_char_value (comm d)) →
            print_event decode fill args start d rw = (start, None)).
Proof.
  assert (- 2 ^ 31 ≤ -2 < -1) as Hrv by lia.
  do 4 (split; [reflexivity|]). split; [exact Hrv|]. split; [reflexivity|].
  apply (negative_return_is_a_length Ex.args Ex.curl (Ex.regs 4294967294) 7 7 7
           Ex.armed 1000 zero_data (-2));
    [reflexivity|reflexivity|reflexivity|reflexivity|exact Hrv|reflexivity].
Defined.

(** C10 as stated fails. A read entered with a buffer fifty bytes below the
    end of readable memory returns -28: the event is emitted with length
    4294967268, but the read of 8191 bytes faults and no byte is copied.
    Under [-c ssh] the consumer drops this event of "curl" and renders no
    marker for it. *)
Lemma negative_return_copies_nothing_from_short_buffer :
  let res := probe_SSL_read_exit Ex.args Ex.curl (Ex.regs 4294967268) 7 7 7
               Ex.armed_short in
  u32 (-28) = 4294967268 ∧
  bufs Ex.armed_short !! 182 = Some 19950 ∧
  emitted (calls res) = [(perf_SSL_read, Ex.the_event res)] ∧
  len (Ex.the_event res) = 4294967268 ∧
  Z.min (len (Ex.the_event res)) (MAX_BUF_SIZE - 1) = 8191 ∧
  bytes_copied (calls res) = 0 ∧
  bytes_copied (calls res) ≠ Z.min (len (Ex.the_event res)) (MAX_BUF_SIZE - 1) ∧
  print_event Ex.decode Ex.fill Ex.args_ssh 0 (Ex.the_event res) "READ/RECV" = (0, None).
Proof. vm_compute. split_and!; done. Qed.
